(** * Clover payment terminal: the payment-request lifecycle of
    [static/src/app/utils/payment/payment_clover.js]

    A shallow embedding of class [PaymentClover] and the properties of its
    confirmation protocol.  JavaScript values are an inductive type with the
    language's truthiness, its [||] and its property lookup, numbers being
    binary64 doubles with their own arithmetic; the instance
    state ([paymentLineResolvers], the order's payment lines, the dialogs
    shown and the proxy calls made) is threaded explicitly; a promise is a
    cell of a promise store, and a resolver is the index of the cell it
    settles. *)

From Stdlib Require Import DecimalString.
From Stdlib Require PrimFloat FloatOps SpecFloat Uint63 FloatAxioms.
From stdpp Require Import gmap strings list fin_maps.

#[local] Set Warnings "-register-all".
Local Open Scope string_scope.

(** ** JavaScript values *)

Module Js.

(** A JavaScript number: a binary64 double. *)
Abbreviation number := PrimFloat.float.

(** The double of an integer, exact for [- 2 ^ 53 <= z <= 2 ^ 53]. *)
Definition num (z : Z) : number :=
  if (0 <=? z)%Z then PrimFloat.of_uint63 (Uint63.of_Z z)
  else PrimFloat.opp (PrimFloat.of_uint63 (Uint63.of_Z (- z))).

(** What a JSON payload delivers, plus [undefined] for a property that is
    not there. *)
Inductive value :=
  | VUndef
  | VNull
  | VBool (b : bool)
  | VNum (x : number)
  | VStr (s : string)
  | VArr (items : list value)
  | VObj (fields : list (string * value)).

(** [o[k]] on the own properties of an object literal. *)
Fixpoint assoc (k : string) (fields : list (string * value)) : value :=
  match fields with
  | [] => VUndef
  | (k', v) :: rest => if String.eqb k k' then v else assoc k rest
  end.

(** [v.k].  The source reads properties only of values it has found truthy
    (or behind [?.]); none of the names it reads is a property of a string,
    a number, a boolean or an array, so the lookup is [undefined] there. *)
Definition get (k : string) (v : value) : value :=
  match v with
  | VObj fields => assoc k fields
  | _ => VUndef
  end.

(** ToBoolean; among the numbers, the zeros and [NaN] are falsy. *)
Definition truthy (v : value) : bool :=
  match v with
  | VUndef | VNull => false
  | VBool b => b
  | VNum x => negb (PrimFloat.eqb x (num 0) || PrimFloat.is_nan x)
  | VStr s => negb (String.eqb s "")
  | VArr _ | VObj _ => true
  end.

(** [a || b]. *)
Definition or (a b : value) : value := if truthy a then a else b.

(** [v?.k]. *)
Definition get_opt (k : string) (v : value) : value :=
  match v with
  | VUndef | VNull => VUndef
  | _ => get k v
  end.

(** [v === 'lit']. *)
Definition is_str (lit : string) (v : value) : bool :=
  match v with
  | VStr s => String.eqb s lit
  | _ => false
  end.

(** [v === n] for a number literal. *)
Definition is_num (n : number) (v : value) : bool :=
  match v with
  | VNum x => PrimFloat.eqb x n
  | _ => false
  end.

(** [Math.round(x)]: the integer nearest to [x], a tie going up.  A
    finite double is [m * 2 ^ e]; with [0 <= e] it is an integer already,
    otherwise the result is the floor of [m * 2 ^ e + 1 / 2], computed on
    integers, with the sign of [x] when it is zero.  [NaN], the infinities
    and the zeros are returned as they are. *)
Definition Math_round (x : number) : number :=
  match FloatOps.Prim2SF x with
  | SpecFloat.S754_finite s m e =>
      if (0 <=? e)%Z then x
      else
        let n := if s then Z.neg m else Z.pos m in
        let r := Z.shiftr (Z.shiftl n 1 + Z.shiftl 1 (- e)) (1 - e) in
        if (r =? 0)%Z then (if s then PrimFloat.neg_zero else PrimFloat.zero)
        else num r
  | _ => x
  end.

(** [a < b] on numbers. *)
Definition lt (a b : number) : bool := PrimFloat.ltb a b.

(** The double of the amount that has [d] minor units, [d / 100] rounded
    once: the double that the decimal writing of the amount denotes. *)
Definition cents (d : Z) : number := PrimFloat.div (num d) (num 100).

End Js.

Import Js.

(** ** Texts shown to the operator *)

(** [_t(fmt)] and [_t(fmt, arg)]: the format string and the value put in
    its [%s], kept apart. *)
Inductive text :=
  | _t (fmt : string)
  | _t1 (fmt : string) (arg : value).

(** The template literal [`Card: ****${last4}`]. *)
Inductive template :=
  | Card_template (last4 : value).

(** The body and the title of an [AlertDialog]. *)
Record Dialog := { title : text; body : text }.

(** ** Payment lines *)

(** The statuses of a payment line of the point of sale. *)
Inductive PaymentStatus :=
  | pending
  | waiting
  | waitingCard
  | waitingCancel
  | waitingCapture
  | reversing
  | reversed
  | timeout
  | retry
  | force_done
  | done.

(** [line.clover_amount]: a number, or the division by 100 of a value that
    is not a number, whose conversion is left as it stands. *)
Inductive amount_value :=
  | Amount (x : number)
  | Amount_div100 (v : value).

(** The fields of a payment line that the class reads and writes.
    [use_payment_terminal] is [payment_method_id.use_payment_terminal]. *)
Record PaymentLine := {
  uuid : string;
  amount : number;
  use_payment_terminal : string;
  payment_status : PaymentStatus;
  card_type : value;
  transaction_id : value;
  cardholder_name : value;
  receipt_info : option template;
  clover_payment_id : value;
  clover_order_id : value;
  clover_result : value;
  clover_amount : option amount_value;
  clover_auth_code : value;
  clover_card_type : value;
  clover_card_last_four : value;
}.

(** The settlement fields of a line, as one tuple. *)
Definition settlement (l : PaymentLine) :=
  (card_type l, transaction_id l, cardholder_name l, receipt_info l,
   (clover_payment_id l, clover_order_id l, clover_result l, clover_amount l),
   (clover_auth_code l, clover_card_type l, clover_card_last_four l)).

(** A line as the order creates it for a terminal payment method. *)
Definition new_line (u : string) (a : number) (terminal : string) : PaymentLine :=
  {| uuid := u; amount := a; use_payment_terminal := terminal;
     payment_status := pending;
     card_type := VUndef; transaction_id := VUndef; cardholder_name := VUndef;
     receipt_info := None;
     clover_payment_id := VUndef; clover_order_id := VUndef;
     clover_result := VUndef; clover_amount := None;
     clover_auth_code := VUndef; clover_card_type := VUndef;
     clover_card_last_four := VUndef |}.

(** [line.setPaymentStatus(s)], a method of the payment line of the point
    of sale: it stores the status. *)
Definition setPaymentStatus (s : PaymentStatus) (l : PaymentLine) : PaymentLine :=
  {| uuid := uuid l; amount := amount l;
     use_payment_terminal := use_payment_terminal l;
     payment_status := s;
     card_type := card_type l; transaction_id := transaction_id l;
     cardholder_name := cardholder_name l; receipt_info := receipt_info l;
     clover_payment_id := clover_payment_id l;
     clover_order_id := clover_order_id l;
     clover_result := clover_result l; clover_amount := clover_amount l;
     clover_auth_code := clover_auth_code l;
     clover_card_type := clover_card_type l;
     clover_card_last_four := clover_card_last_four l |}.

(** [line.isDone()], a method of the payment line of the point of sale
    (module [point_of_sale], outside this repository): a line with a
    status is done when the status is [done] or [reversed]. *)
Definition isDone (l : PaymentLine) : bool :=
  match payment_status l with
  | done | reversed => true
  | _ => false
  end.

(** [line.handlePaymentResponse(isPaymentSuccessful)], a method of the
    payment line of the point of sale (outside this repository): the line
    is [done] on success and [retry] otherwise.  The payment screen applies
    it to what [sendPaymentRequest] resolves to. *)
Definition handlePaymentResponse (isPaymentSuccessful : bool) (l : PaymentLine)
  : PaymentLine :=
  if isPaymentSuccessful then setPaymentStatus done l
  else setPaymentStatus retry l.

(** ** The state of a payment-method instance and of what it talks to *)

(** The payload of a [sale] request, built by [_cloverPayData]. *)
Record PayData := {
  pd_amount : number;
  pd_currency : string;
  pd_externalPaymentId : string;
  pd_orderId : string;
  pd_note : string;
  pd_autoAcceptPaymentConfirmations : bool;
  pd_autoAcceptSignature : bool;
}.

(** The [data] argument of [_callClover]: [{}] or a sale payload. *)
Inductive request_data :=
  | Empty_data
  | Sale_data (d : PayData).

(** One call of [proxy_clover_request]. *)
Record Call := { call_data : request_data; call_operation : string }.

(** How a call to the backend ends: with a reply, or with a transport
    error that rejects the promise of [silentCall]. *)
Inductive ProxyReply :=
  | Reply (v : value)
  | TransportError (e : value).

(** What the class reads of [this.pos] and never writes. *)
Record Pos := {
  order_uuid : string;
  order_session_id : Z;
  order_name : string;
  currency_name : string;
  payment_method_id : Z;
}.

(** The instance and its collaborators.  A payment line is known by its
    position in [payment_ids]; a promise by its position in [promises],
    where [None] is a promise still pending and [Some v] one fulfilled
    with [v].  [dialogs] and [calls] have the newest entry first. *)
Record State := {
  pos : Pos;
  payment_ids : list PaymentLine;
  selected_paymentline : option nat;
  paymentLineResolvers : gmap string nat;
  terminalStatus : string;
  promises : list (option value);
  dialogs : list Dialog;
  calls : list Call;
}.

Definition set_payment_ids (ls : list PaymentLine) (st : State) : State :=
  {| pos := pos st; payment_ids := ls;
     selected_paymentline := selected_paymentline st;
     paymentLineResolvers := paymentLineResolvers st;
     terminalStatus := terminalStatus st; promises := promises st;
     dialogs := dialogs st; calls := calls st |}.

Definition set_resolvers (m : gmap string nat) (st : State) : State :=
  {| pos := pos st; payment_ids := payment_ids st;
     selected_paymentline := selected_paymentline st;
     paymentLineResolvers := m;
     terminalStatus := terminalStatus st; promises := promises st;
     dialogs := dialogs st; calls := calls st |}.

Definition set_promises (ps : list (option value)) (st : State) : State :=
  {| pos := pos st; payment_ids := payment_ids st;
     selected_paymentline := selected_paymentline st;
     paymentLineResolvers := paymentLineResolvers st;
     terminalStatus := terminalStatus st; promises := ps;
     dialogs := dialogs st; calls := calls st |}.

Definition set_dialogs (ds : list Dialog) (st : State) : State :=
  {| pos := pos st; payment_ids := payment_ids st;
     selected_paymentline := selected_paymentline st;
     paymentLineResolvers := paymentLineResolvers st;
     terminalStatus := terminalStatus st; promises := promises st;
     dialogs := ds; calls := calls st |}.

Definition set_calls (cs : list Call) (st : State) : State :=
  {| pos := pos st; payment_ids := payment_ids st;
     selected_paymentline := selected_paymentline st;
     paymentLineResolvers := paymentLineResolvers st;
     terminalStatus := terminalStatus st; promises := promises st;
     dialogs := dialogs st; calls := cs |}.

(** A method applied to the line at position [i]. *)
Definition update_line (i : nat) (f : PaymentLine -> PaymentLine) (st : State)
  : State :=
  set_payment_ids (alter f i (payment_ids st)) st.

(** [setup()]: no resolver, terminal [disconnected]. *)
Definition setup (p : Pos) (ls : list PaymentLine) (sel : option nat) : State :=
  {| pos := p; payment_ids := ls; selected_paymentline := sel;
     paymentLineResolvers := ∅; terminalStatus := "disconnected";
     promises := []; dialogs := []; calls := [] |}.

(** [this.pos.getPendingPaymentLine(terminal)], a method of the store of
    the point of sale (outside this repository): the first line of the
    order paid with that terminal and not done. *)
Definition getPendingPaymentLine (terminal : string) (ls : list PaymentLine)
  : option nat :=
  fst <$> list_find
    (λ l, use_payment_terminal l = terminal ∧ isDone l = false) ls.

(** [order.payment_ids.find((paymentLine) => paymentLine.uuid === uuid)]. *)
Definition find_uuid (u : string) (ls : list PaymentLine) : option nat :=
  fst <$> list_find (λ l, uuid l = u) ls.

(** The resolve function of promise [p], called with [v]: it fulfils a
    pending promise and does nothing to a fulfilled one. *)
Definition resolve (p : nat) (v : value) (st : State) : State :=
  match promises st !! p with
  | Some None => set_promises (<[p := Some v]> (promises st)) st
  | _ => st
  end.

(** ** The methods of [PaymentClover] *)

(** What [_cloverHandleResponse] returns: a boolean, or the promise made
    by [waitForPaymentConfirmation]. *)
Inductive Result :=
  | RBool (b : bool)
  | RPromise (p : nat).

(** How an [async] method ends: it fulfils its promise with a result,
    rejects it with a reason, or rejects it with the [TypeError] of a
    property read on [undefined]. *)
Inductive Completion :=
  | Fulfilled (r : Result)
  | Rejected (reason : value)
  | TypeError.

(** [pendingCloverLine()]. *)
Definition pendingCloverLine (st : State) : option nat :=
  getPendingPaymentLine "clover" (payment_ids st).

(** [_showError(message)]: the title falls back to [_t("Clover Error")]. *)
Definition _showError (message : text) (st : State) : State :=
  set_dialogs ({| title := _t "Clover Error"; body := message |} :: dialogs st) st.

(** The default [data = {}] of [_handleOdooConnectionFailure]: it stands
    in for an argument that is [undefined], and for no other. *)
Definition default_data (data : value) : value :=
  match data with
  | VUndef => VObj []
  | _ => data
  end.

(** [_handleOdooConnectionFailure(data = {})]: the state it leaves and the
    reason of the rejected promise it returns. *)
Definition _handleOdooConnectionFailure (data : value) (st : State)
  : State * value :=
  let data := default_data data in
  let st1 :=
    match pendingCloverLine st with
    | Some line => update_line line (setPaymentStatus retry) st
    | None => st
    end in
  (_showError
     (_t "Could not connect to the Odoo server. Please check your internet connection and try again.")
     st1,
   data).

(** [_callClover(data, operation)], in its two moments: the call goes out,
    and later the promise of [silentCall] settles, a rejection passing
    through [.catch(this._handleOdooConnectionFailure.bind(this))]. *)
Definition _callClover_send (data : request_data) (operation : string)
    (st : State) : State :=
  set_calls ({| call_data := data; call_operation := operation |} :: calls st) st.

Definition _callClover_settle (reply : ProxyReply) (st : State)
  : State * (value + value) :=
  match reply with
  | Reply v => (st, inl v)
  | TransportError e =>
      let '(st', reason) := _handleOdooConnectionFailure e st in
      (st', inr reason)
  end.

(** [await this._callClover(data, operation)]. *)
Definition _callClover (data : request_data) (operation : string)
    (reply : ProxyReply) (st : State) : State * (value + value) :=
  _callClover_settle reply (_callClover_send data operation st).

(** The decimal writing of an integer, for a template literal. *)
Definition string_of_Z (z : Z) : string :=
  NilZero.string_of_int (Z.to_int z).

(** [_cloverPayData()]: [None] when no payment line is selected and
    [line.amount] throws. *)
Definition _cloverPayData (st : State) : option PayData :=
  line ← selected_paymentline st ≫= (payment_ids st !!.);
  Some {| pd_amount := Math_round (PrimFloat.mul (amount line) (num 100));
          pd_currency := currency_name (pos st);
          pd_externalPaymentId :=
            order_uuid (pos st) ++ "--" ++ string_of_Z (order_session_id (pos st));
          pd_orderId := order_name (pos st);
          pd_note := "POS Order: " ++ order_name (pos st);
          pd_autoAcceptPaymentConfirmations := true;
          pd_autoAcceptSignature := true |}.

(** [payment.amount ? payment.amount / 100 : line.amount]. *)
Definition clover_amount_of (payment : value) (line_amount : number)
  : amount_value :=
  if truthy (get "amount" payment) then
    match get "amount" payment with
    | VNum x => Amount (PrimFloat.div x (num 100))
    | v => Amount_div100 v
    end
  else Amount line_amount.

(** The assignments of [_handleSuccessResponse] to the line. *)
Definition settle_line (response : value) (l : PaymentLine) : PaymentLine :=
  let payment := or (get "payment" response) response in
  let cardTx := get "cardTransaction" payment in
  {| uuid := uuid l; amount := amount l;
     use_payment_terminal := use_payment_terminal l;
     payment_status := payment_status l;
     card_type :=
       if truthy cardTx then or (get "cardType" cardTx) (get "type" cardTx)
       else card_type l;
     transaction_id :=
       if truthy cardTx then or (get "referenceId" cardTx) (get "id" payment)
       else transaction_id l;
     cardholder_name :=
       if truthy cardTx then or (get "cardholderName" cardTx) (VStr "")
       else cardholder_name l;
     receipt_info :=
       if truthy cardTx && truthy (get "last4" cardTx)
       then Some (Card_template (get "last4" cardTx))
       else receipt_info l;
     clover_payment_id := get "id" payment;
     clover_order_id := get_opt "id" (get "order" payment);
     clover_result := or (get "result" response) (VStr "SUCCESS");
     clover_amount := Some (clover_amount_of payment (amount l));
     clover_auth_code := get_opt "authCode" cardTx;
     clover_card_type := get_opt "cardType" cardTx;
     clover_card_last_four := get_opt "last4" cardTx |}.

(** [_handleSuccessResponse(response, line)]: the line is settled and the
    [thank_you] call goes out; nothing waits for it. *)
Definition _handleSuccessResponse (response : value) (line : nat) (st : State)
  : State * bool :=
  let st1 := update_line line (settle_line response) st in
  (_callClover_send Empty_data "thank_you" st1, true).

(** [waitForPaymentConfirmation(line)]: a new promise, its resolve
    function stored under the uuid of the line.  [line] is a line of the
    order in every call the class makes; the other case is there for
    totality. *)
Definition waitForPaymentConfirmation (line : nat) (st : State)
  : State * Result :=
  match payment_ids st !! line with
  | Some l =>
      let p := length (promises st) in
      (set_resolvers (<[uuid l := p]> (paymentLineResolvers st))
         (set_promises (promises st ++ [None]) st),
       RPromise p)
  | None => (st, RBool false)
  end.

(** [_cloverHandleResponse(response, line)]. *)
Definition _cloverHandleResponse (response : value) (line : nat) (st : State)
  : State * Result :=
  if negb (truthy response) then
    let st1 := _showError (_t "No response received from Clover terminal.") st in
    (update_line line (setPaymentStatus force_done) st1, RBool false)
  else if truthy (get "error" response) then
    let errorMsg := or (get "message" (get "error" response)) (VStr "Unknown error") in
    let st1 :=
      if is_num (num 401) (get "status_code" (get "error" response)) then
        _showError (_t "Authentication failed. Please check your Clover credentials.") st
      else _showError (_t1 "Clover error: %s" errorMsg) st in
    (update_line line (setPaymentStatus force_done) st1, RBool false)
  else if truthy (get "success" response)
          || is_str "SUCCESS" (get "result" response)
          || truthy (get "payment" response) then
    let '(st1, b) := _handleSuccessResponse response line st in
    (st1, RBool b)
  else if is_str "PENDING" (get "status" response)
          || is_str "PENDING" (get "result" response) then
    waitForPaymentConfirmation line
      (update_line line (setPaymentStatus waitingCard) st)
  else
    let message :=
      or (get "message" response)
         (or (get "reason" response) (VStr "Payment was not approved")) in
    let st1 := _showError (_t1 "Payment declined: %s" message) st in
    (update_line line (setPaymentStatus retry) st1, RBool false).

(** [_cloverPay(uuid)], given how the [welcome] and the [sale] calls end
    when they are made. *)
Definition _cloverPay (u : string) (welcome_reply sale_reply : ProxyReply)
    (st : State) : State * Completion :=
  match find_uuid u (payment_ids st) ≫= (λ i, pair i <$> payment_ids st !! i) with
  | None => (st, TypeError)
  | Some (line, l) =>
      if Js.lt (amount l) (num 0) then
        (_showError (_t "Cannot process transactions with negative amount.") st,
         Fulfilled (RBool false))
      else
        match _callClover Empty_data "welcome" welcome_reply st with
        | (st1, inr reason) => (st1, Rejected reason)
        | (st1, inl _) =>
            match _cloverPayData st1 with
            | None => (st1, TypeError)
            | Some data =>
                match _callClover (Sale_data data) "sale" sale_reply st1 with
                | (st2, inl response) =>
                    let '(st3, r) := _cloverHandleResponse response line st2 in
                    (st3, Fulfilled r)
                | (st2, inr error) =>
                    match error with
                    | VUndef | VNull => (st2, TypeError)
                    | _ =>
                        let st3 :=
                          _showError
                            (_t1 "Payment request failed: %s"
                                 (or (get "message" error) error)) st2 in
                        (update_line line (setPaymentStatus retry) st3,
                         Fulfilled (RBool false))
                    end
                end
            end
        end
  end.

(** [sendPaymentRequest(uuid)]; the method of the base class it calls
    first has an empty body. *)
Definition sendPaymentRequest (u : string) (welcome_reply sale_reply : ProxyReply)
    (st : State) : State * Completion :=
  _cloverPay u welcome_reply sale_reply st.

(** [const isSuccess = payment.result === 'SUCCESS' || notification.success]
    with [payment = notification.payment || notification]. *)
Definition isSuccess (notification : value) : value :=
  let payment := or (get "payment" notification) notification in
  if is_str "SUCCESS" (get "result" payment) then VBool true
  else get "success" notification.

(** [handleCloverStatusResponse()], given how the call of
    [get_latest_clover_status] ends.  That call is made with [silentCall]
    directly: a transport error rejects the method and nothing else
    happens. *)
Definition handleCloverStatusResponse (reply : ProxyReply) (st : State)
  : State * option value :=
  match reply with
  | TransportError e => (st, Some e)
  | Reply notification =>
      if negb (truthy notification) then
        (fst (_handleOdooConnectionFailure VUndef st), None)
      else
        match pendingCloverLine st ≫= (λ i, pair i <$> payment_ids st !! i) with
        | None => (st, None)
        | Some (line, l) =>
            let payment := or (get "payment" notification) notification in
            let st1 :=
              if truthy (isSuccess notification) then
                fst (_handleSuccessResponse notification line st)
              else
                let message :=
                  or (get "failureMessage" payment)
                     (or (get "reason" payment) (VStr "Payment failed")) in
                _showError (_t1 "Payment failed: %s" message) st in
            match paymentLineResolvers st1 !! uuid l with
            | Some resolver =>
                (set_resolvers (delete (uuid l) (paymentLineResolvers st1))
                   (resolve resolver (isSuccess notification) st1),
                 None)
            | None =>
                (update_line line
                   (handlePaymentResponse (truthy (isSuccess notification))) st1,
                 None)
            end
        end
  end.

(** [_cloverCancel(ignoreError)], given how the [cancel] call ends. *)
Definition _cloverCancel (ignoreError : bool) (reply : ProxyReply) (st : State)
  : State * bool :=
  match _callClover Empty_data "cancel" reply st with
  | (st1, inl response) =>
      if negb ignoreError && truthy (get_opt "error" response) then
        (_showError
           (_t "Cancelling the payment failed. Please cancel it manually on the Clover terminal.")
           st1, true)
      else (st1, true)
  | (st1, inr _) =>
      if negb ignoreError then
        (_showError
           (_t "Cancelling the payment failed. Please cancel it manually on the Clover terminal.")
           st1, false)
      else (st1, false)
  end.

(** [sendPaymentCancel(order, uuid)] and [close()]; the methods of the
    base class they call first have empty bodies. *)
Definition sendPaymentCancel (reply : ProxyReply) (st : State) : State * bool :=
  _cloverCancel false reply st.

Definition close (reply : ProxyReply) (st : State) : State :=
  fst (_cloverCancel true reply st).

(** ** The methods between their awaits *)

(** [_cloverPay(uuid)] up to its first [await]: either it ends at once, or
    the [welcome] call has gone out and the method waits with its line. *)
Definition _cloverPay_begin (u : string) (st : State)
  : State * (Completion + nat) :=
  match find_uuid u (payment_ids st) ≫= (λ i, pair i <$> payment_ids st !! i) with
  | None => (st, inl TypeError)
  | Some (line, l) =>
      if Js.lt (amount l) (num 0) then
        (_showError (_t "Cannot process transactions with negative amount.") st,
         inl (Fulfilled (RBool false)))
      else (_callClover_send Empty_data "welcome" st, inr line)
  end.

(** [_cloverPay] from the moment the [welcome] call settles, in the state
    of that moment, up to its second [await]: either it ends, or the
    [sale] call has gone out. *)
Definition _cloverPay_welcomed (line : nat) (welcome_reply : ProxyReply)
    (st : State) : State * (Completion + nat) :=
  match _callClover_settle welcome_reply st with
  | (st1, inr reason) => (st1, inl (Rejected reason))
  | (st1, inl _) =>
      match _cloverPayData st1 with
      | None => (st1, inl TypeError)
      | Some data => (_callClover_send (Sale_data data) "sale" st1, inr line)
      end
  end.

(** [_cloverPay] from the moment the [sale] call settles, in the state of
    that moment, to its end. *)
Definition _cloverPay_sold (line : nat) (sale_reply : ProxyReply) (st : State)
  : State * Completion :=
  match _callClover_settle sale_reply st with
  | (st2, inl response) =>
      let '(st3, r) := _cloverHandleResponse response line st2 in
      (st3, Fulfilled r)
  | (st2, inr error) =>
      match error with
      | VUndef | VNull => (st2, TypeError)
      | _ =>
          let st3 :=
            _showError
              (_t1 "Payment request failed: %s"
                   (or (get "message" error) error)) st2 in
          (update_line line (setPaymentStatus retry) st3,
           Fulfilled (RBool false))
      end
  end.

(** [_cloverCancel(ignoreError)] from the moment the [cancel] call
    settles. *)
Definition _cloverCancel_settled (ignoreError : bool) (reply : ProxyReply)
    (st : State) : State * bool :=
  match _callClover_settle reply st with
  | (st1, inl response) =>
      if negb ignoreError && truthy (get_opt "error" response) then
        (_showError
           (_t "Cancelling the payment failed. Please cancel it manually on the Clover terminal.")
           st1, true)
      else (st1, true)
  | (st1, inr _) =>
      if negb ignoreError then
        (_showError
           (_t "Cancelling the payment failed. Please cancel it manually on the Clover terminal.")
           st1, false)
      else (st1, false)
  end.

(** One event of a method: it runs from its call to its first [await], or
    from the settling of the call it awaits to its next [await] or its
    end.  Each event finds the state as the events before it left it. *)
Inductive Event :=
  | E_sendPaymentRequest (u : string)
  | E_welcome_settles (line : nat) (reply : ProxyReply)
  | E_sale_settles (line : nat) (reply : ProxyReply)
  | E_cancel_sent
  | E_cancel_settles (ignoreError : bool) (reply : ProxyReply)
  | E_status_settles (reply : ProxyReply)
  | E_thank_you_settles (reply : ProxyReply).

(** The state an event leaves.  [handleCloverStatusResponse] does nothing
    before its [await], so it is one event, at the moment the status
    query settles. *)
Definition fire (ev : Event) (st : State) : State :=
  match ev with
  | E_sendPaymentRequest u => fst (_cloverPay_begin u st)
  | E_welcome_settles line r => fst (_cloverPay_welcomed line r st)
  | E_sale_settles line r => fst (_cloverPay_sold line r st)
  | E_cancel_sent => _callClover_send Empty_data "cancel" st
  | E_cancel_settles ignoreError r => fst (_cloverCancel_settled ignoreError r st)
  | E_status_settles r => fst (handleCloverStatusResponse r st)
  | E_thank_you_settles r => fst (_callClover_settle r st)
  end.

(** The line an event holds from the call of its method: the line of the
    request, when its [sale] call settles. *)
Definition event_target (ev : Event) : option nat :=
  match ev with
  | E_sale_settles line _ => Some line
  | _ => None
  end.

(** ** The life of an instance *)

(** One step of the instance: a method of the class runs to its end with
    nothing in between, a part of a method runs between two awaits, the
    [thank_you] call that a success left behind settles, or the point of
    sale changes the order (lines added, selected, or given a status by
    the payment screen). *)
Inductive step : State -> State -> Prop :=
  | step_sendPaymentRequest u w s st :
      step st (fst (sendPaymentRequest u w s st))
  | step_sendPaymentCancel r st :
      step st (fst (sendPaymentCancel r st))
  | step_close r st :
      step st (close r st)
  | step_handleCloverStatusResponse r st :
      step st (fst (handleCloverStatusResponse r st))
  | step_thank_you_settles r st :
      {| call_data := Empty_data; call_operation := "thank_you" |} ∈ calls st ->
      step st (fst (_callClover_settle r st))
  | step_order ls sel st :
      step st
        {| pos := pos st; payment_ids := ls; selected_paymentline := sel;
           paymentLineResolvers := paymentLineResolvers st;
           terminalStatus := terminalStatus st; promises := promises st;
           dialogs := dialogs st; calls := calls st |}
  | step_event ev st :
      step st (fire ev st).

(** The states an instance can be in, from [setup()] on. *)
Inductive reachable : State -> Prop :=
  | reachable_setup p ls sel : reachable (setup p ls sel)
  | reachable_step st st' : reachable st -> step st st' -> reachable st'.

(** The registry of resolvers is sound: each resolver belongs to a promise
    that exists and is still pending, and no two lines share one. *)
Definition registry_wf (st : State) : Prop :=
  (∀ u p, paymentLineResolvers st !! u = Some p -> promises st !! p = Some None)
  ∧ (∀ u u' p, paymentLineResolvers st !! u = Some p ->
               paymentLineResolvers st !! u' = Some p -> u = u').

(** The dialog of [_handleOdooConnectionFailure]. *)
Definition connectivity_dialog : Dialog :=
  {| title := _t "Clover Error";
     body := _t "Could not connect to the Odoo server. Please check your internet connection and try again." |}.

(** ** The round trip of an amount, checked by evaluation *)



(** ** Outcomes *)

(** The four ways a payload can turn out. *)
Inductive Outcome :=
  | Success
  | Pending
  | Declined
  | TerminalError.

(** The outcome of a sale reply, read off what [_cloverHandleResponse]
    does with it for the line at position [line]: it returns [true]
    (success), parks a promise (pending), or returns [false] with the line
    forced done (terminal error) or not (declined). *)
Definition sale_reply_outcome (response : value) (line : nat) (st : State)
  : Outcome :=
  match _cloverHandleResponse response line st with
  | (_, RPromise _) => Pending
  | (_, RBool true) => Success
  | (st', RBool false) =>
      match payment_status <$> payment_ids st' !! line with
      | Some force_done => TerminalError
      | _ => Declined
      end
  end.

(** The outcome of a notification, read off what
    [handleCloverStatusResponse] leaves of the pending line when no
    resolver waits for it: [done] is a success, [force_done] a terminal
    error, [waitingCard] a pending payment, any other status a refusal. *)
Definition notification_outcome (notification : value) (st : State)
  : option Outcome :=
  line ← pendingCloverLine st;
  l' ← payment_ids (fst (handleCloverStatusResponse (Reply notification) st)) !! line;
  Some match payment_status l' with
       | done => Success
       | force_done => TerminalError
       | waitingCard => Pending
       | _ => Declined
       end.

(** ** The methods as events *)

(** A run of one public method of the instance (or the late settling of a
    [thank_you] call), with the replies of the backend it meets and with
    no other event between its awaits; the runs cut at their awaits are
    the events below. *)
Inductive Method :=
  | M_sendPaymentRequest (u : string) (welcome_reply sale_reply : ProxyReply)
  | M_sendPaymentCancel (reply : ProxyReply)
  | M_close (reply : ProxyReply)
  | M_handleCloverStatusResponse (reply : ProxyReply)
  | M_thank_you_settles (reply : ProxyReply).

(** The state a method leaves. *)
Definition run (m : Method) (st : State) : State :=
  match m with
  | M_sendPaymentRequest u w s => fst (sendPaymentRequest u w s st)
  | M_sendPaymentCancel r => fst (sendPaymentCancel r st)
  | M_close r => close r st
  | M_handleCloverStatusResponse r => fst (handleCloverStatusResponse r st)
  | M_thank_you_settles r => fst (_callClover_settle r st)
  end.

(** Whether the method is a payment request. *)
Definition is_request (m : Method) : bool :=
  match m with
  | M_sendPaymentRequest _ _ _ => true
  | _ => false
  end.

(** Two lines are the same payment: same uuid, amount and terminal. *)
Definition same_payment (l l' : PaymentLine) : Prop :=
  uuid l' = uuid l ∧ amount l' = amount l
  ∧ use_payment_terminal l' = use_payment_terminal l.

(** The rules of [_cloverHandleResponse], as a table from the reply alone. *)
Definition sale_reply_table (response : value) : Outcome :=
  if negb (truthy response) then TerminalError
  else if truthy (get "error" response) then TerminalError
  else if truthy (get "success" response)
          || is_str "SUCCESS" (get "result" response)
          || truthy (get "payment" response) then Success
  else if is_str "PENDING" (get "status" response)
          || is_str "PENDING" (get "result" response) then Pending
  else Declined.

(** The operations of a list of calls, newest first. *)
Definition operations (cs : list Call) : list string := call_operation <$> cs.


(** [st'] continues [st]: dialogs and calls were only added, the context of
    the order is the same, the promise store has only grown and every
    promise fulfilled in [st] is fulfilled with the same value in [st']. *)
Definition continues (st st' : State) : Prop :=
  (∃ ds, dialogs st' = (ds ++ dialogs st)%list)
  ∧ (∃ cs, calls st' = (cs ++ calls st)%list)
  ∧ pos st' = pos st
  ∧ selected_paymentline st' = selected_paymentline st
  ∧ terminalStatus st' = terminalStatus st
  ∧ (∃ ps, length (promises st') = (length (promises st) + ps)%nat)
  ∧ (∀ p v, promises st !! p = Some (Some v) ->
            promises st' !! p = Some (Some v)).

(** ** The OAuth connect widget *)

(** Class [CloverOAuthConnect]: the handler of the messages of the OAuth
    popup and the generation of the access token. *)
Module OAuth.

(** The fields of [this.props.record.data] the widget reads and writes. *)
Record RecordData := {
  clover_authorization_url : value;
  clover_authorization_code : value;
  clover_access_token : value;
  clover_merchant_id : value;
  clover_app_id : value;
  clover_app_secret : value;
}.

(** One call of [this.notification.add(message, { type })]. *)
Record Notification := { n_message : text; n_type : string }.

(** The widget: [this.state.isConnecting]; [this.oauthWindow], [None]
    when there is no popup and [Some closed] when there is one; the
    record; the notifications shown, newest first. *)
Record Widget := {
  isConnecting : bool;
  oauthWindow : option bool;
  data : RecordData;
  notifications : list Notification;
}.

(** A message event: [event.origin] and [event.data]. *)
Record MessageEvent := { origin : string; event_data : value }.

(** How [this.props.record.update(...)] ends. *)
Inductive UpdateReply :=
  | Updated
  | UpdateError (e : value).

(** How [this.props.record.load()] ends. *)
Inductive LoadReply :=
  | Loaded (d : RecordData)
  | LoadError (e : value).

Definition notify (message : text) (type : string) (w : Widget) : Widget :=
  {| isConnecting := isConnecting w; oauthWindow := oauthWindow w;
     data := data w;
     notifications :=
       {| n_message := message; n_type := type |} :: notifications w |}.

Definition set_isConnecting (b : bool) (w : Widget) : Widget :=
  {| isConnecting := b; oauthWindow := oauthWindow w; data := data w;
     notifications := notifications w |}.

Definition set_data (d : RecordData) (w : Widget) : Widget :=
  {| isConnecting := isConnecting w; oauthWindow := oauthWindow w; data := d;
     notifications := notifications w |}.

(** [if (this.oauthWindow && !this.oauthWindow.closed) this.oauthWindow.close()]. *)
Definition close_popup (w : Widget) : Widget :=
  {| isConnecting := isConnecting w;
     oauthWindow :=
       match oauthWindow w with
       | Some false => Some true
       | o => o
       end;
     data := data w; notifications := notifications w |}.

(** [this.props.record.update({ clover_authorization_code: code })]. *)
Definition update_authorization_code (code : value) (d : RecordData)
  : RecordData :=
  {| clover_authorization_url := clover_authorization_url d;
     clover_authorization_code := code;
     clover_access_token := clover_access_token d;
     clover_merchant_id := clover_merchant_id d;
     clover_app_id := clover_app_id d;
     clover_app_secret := clover_app_secret d |}.

(** The [catch] of [_generateAccessToken]: the notification of the
    failure; [false] when [error.message] itself throws, on [null] and
    [undefined]. *)
Definition catch_error (error : value) (w : Widget) : Widget * bool :=
  match error with
  | VUndef | VNull => (w, false)
  | _ =>
      (notify (_t1 "Failed to generate access token: %s"
                 (or (get "message" error) error)) "danger" w,
       true)
  end.

(** [_generateAccessToken()], given how the call of
    [action_generate_access_token] and the reload of the record end.  The
    boolean tells whether the method ended without throwing; the
    [finally] runs in both cases. *)
Definition _generateAccessToken (call : ProxyReply) (load : LoadReply)
    (w : Widget) : Widget * bool :=
  let '(w1, ok) :=
    match call with
    | TransportError error => catch_error error w
    | Reply result =>
        if truthy result && is_str "ir.actions.client" (get "type" result) then
          let w1 := notify (_t "Access token generated successfully!") "success" w in
          match load with
          | Loaded d => (set_data d w1, true)
          | LoadError error => catch_error error w1
          end
        else (w, true)
    end in
  (set_isConnecting false w1, ok).

(** The origins [_onOAuthMessage] accepts; the first is
    [window.location.origin]. *)
Definition allowedOrigins (location_origin : string) : list string :=
  [location_origin; "https://sandbox.dev.clover.com"; "https://www.clover.com"].

(** [_onOAuthMessage(event)], given how the update of the record and the
    calls of [_generateAccessToken] end.  The update is awaited outside
    any [try]: when it rejects the method ends there, the popup closed
    and nothing else done.  The boolean tells whether the method ended
    without throwing. *)
Definition _onOAuthMessage (location_origin : string) (event : MessageEvent)
    (update : UpdateReply) (call : ProxyReply) (load : LoadReply) (w : Widget)
  : Widget * bool :=
  if negb (bool_decide (origin event ∈ allowedOrigins location_origin)) then
    (w, true)
  else if truthy (event_data event)
          && is_str "CLOVER_OAUTH_CALLBACK" (get "type" (event_data event)) then
    if truthy (get "code" (event_data event)) then
      let w1 := close_popup w in
      match update with
      | UpdateError _ => (w1, false)
      | Updated =>
          let w2 :=
            set_data (update_authorization_code (get "code" (event_data event))
                        (data w1)) w1 in
          let w3 :=
            notify (_t "Authorization successful! Generating access token...")
              "info" w2 in
          _generateAccessToken call load w3
      end
    else (w, true)
  else (w, true).

(** [get isConnected()]. *)
Definition isConnected (w : Widget) : bool :=
  truthy (clover_access_token (data w)).

(** [get connectionStatus()]. *)
Definition connectionStatus (w : Widget) : text :=
  if isConnected w then _t "Connected"
  else if truthy (clover_authorization_code (data w)) then
    _t "Authorization pending"
  else _t "Not connected".

End OAuth.

(** ** The payment provider card *)

(** Class [CloverPaymentProviderCard]. *)
Module ProviderCard.

(** The fields of the record that [selectClover] writes. *)
Record RecordData := {
  payment_method_type : value;
  use_payment_terminal : value;
  name : value;
}.


End ProviderCard.

(** ** Sample data *)

Module Sample.

Definition pos0 : Pos :=
  {| order_uuid := "0a1b"; order_session_id := 7; order_name := "Order 0001";
     currency_name := "USD"; payment_method_id := 3 |}.

(** One clover line of 12.34, selected, on a fresh instance. *)
Definition st0 : State :=
  setup pos0 [new_line "l1" (cents 1234) "clover"] (Some 0%nat).

(** Two clover lines: the first of 5.00 is selected, the second waits. *)
Definition st_two : State :=
  setup pos0 [new_line "l1" (num 5) "clover"; new_line "l2" (num 7) "clover"]
    (Some 0%nat).

(** A line of -5.00. *)
Definition st_negative : State :=
  setup pos0 [new_line "l1" (num (-5)) "clover"] (Some 0%nat).

Definition pending_reply : value := VObj [("status", VStr "PENDING")].

Definition success_notification (id : string) : value :=
  VObj [("payment", VObj [("result", VStr "SUCCESS"); ("id", VStr id)])].

Definition failure_notification : value :=
  VObj [("result", VStr "FAIL"); ("reason", VStr "card declined")].

Definition success_reply : value :=
  VObj [("success", VBool true);
        ("payment",
         VObj [("id", VStr "p1"); ("amount", VNum (num 500));
               ("cardTransaction",
                VObj [("last4", VStr "4242"); ("type", VStr "VISA")])])].

Definition transport_error : value :=
  VObj [("message", VStr "XHR failed")].

(** [st0] after a sale answered [PENDING]: the line waits for its card and
    promise 0 is parked under its uuid. *)
Definition st_waiting : State :=
  fst (sendPaymentRequest "l1" (Reply (VObj [])) (Reply pending_reply) st0).

End Sample.

(** * Properties *)

Import Sample.

(** ** Lines and the pending line *)

Lemma lookup_update_line_eq i f st :
  payment_ids (update_line i f st) !! i = f <$> payment_ids st !! i.
Proof. apply list_lookup_alter_eq. Qed.

Lemma lookup_update_line_ne i j f st :
  i ≠ j -> payment_ids (update_line i f st) !! j = payment_ids st !! j.
Proof. intros Hij. by apply list_lookup_alter_ne. Qed.


(** Altering a line by a function that keeps a predicate as it is keeps
    the position of the first line that satisfies it. *)
Lemma list_find_alter_fst {A} (P : A -> Prop) `{!∀ x, Decision (P x)}
    (f : A -> A) i (ls : list A) :
  (∀ x, P (f x) <-> P x) ->
  fst <$> list_find P (alter f i ls) = fst <$> list_find P ls.
Proof.
  intros HP. revert i. induction ls as [|x ls IH]; intros i; [done|].
  destruct i as [|i]; simpl.
  - destruct (decide (P (f x))) as [Hfx|Hfx], (decide (P x)) as [Hx|Hx];
      try done; specialize (HP x); tauto.
  - destruct (decide (P x)); [done|].
    specialize (IH i). unfold alter in IH.
    destruct (list_find P (list_alter f i ls)) as [[]|],
             (list_find P ls) as [[]|]; simplify_eq/=; done.
Qed.

(** A method that leaves the terminal and the done-ness of lines alone
    leaves the pending line where it is. *)
Lemma getPendingPaymentLine_alter t f i ls :
  (∀ l, use_payment_terminal (f l) = use_payment_terminal l) ->
  (∀ l, isDone (f l) = isDone l) ->
  getPendingPaymentLine t (alter f i ls) = getPendingPaymentLine t ls.
Proof.
  intros Ht Hd. unfold getPendingPaymentLine.
  apply list_find_alter_fst. intros l. by rewrite Ht, Hd.
Qed.

Lemma pendingCloverLine_settle_line response i st :
  pendingCloverLine (update_line i (settle_line response) st)
  = pendingCloverLine st.
Proof. by apply getPendingPaymentLine_alter. Qed.

Lemma find_uuid_Some u ls i :
  find_uuid u ls = Some i -> ∃ l, ls !! i = Some l ∧ uuid l = u.
Proof.
  unfold find_uuid. intros H.
  destruct (list_find _ _) as [[j l]|] eqn:E; simplify_eq/=.
  apply list_find_Some in E as (Hl & Hu & _). eauto.
Qed.

Lemma truthy_get_object k response :
  truthy (get k response) = true -> truthy response = true.
Proof. by destruct response. Qed.

(** ** The sale reply *)

(** C8. Classification precedence: a sale reply whose [error] field is set
    (truthy, as the code tests it) is a terminal error whatever success
    indicator it also carries: [false] is returned, the line is forced
    done with no settlement field written and no [thank_you] call made;
    the dialog is the authentication one when [error.status_code] is 401
    and the generic one, with the message of the error, otherwise. *)
Theorem error_field_wins response line l st :
  payment_ids st !! line = Some l ->
  truthy (get "error" response) = true ->
  _cloverHandleResponse response line st
  = (update_line line (setPaymentStatus force_done)
       (_showError
          (if is_num (num 401) (get "status_code" (get "error" response))
           then _t "Authentication failed. Please check your Clover credentials."
           else _t1 "Clover error: %s"
                  (or (get "message" (get "error" response))
                      (VStr "Unknown error")))
          st),
     RBool false)
  ∧ sale_reply_outcome response line st = TerminalError
  ∧ sale_reply_outcome response line st ≠ Success
  ∧ ∃ l', payment_ids (fst (_cloverHandleResponse response line st)) !! line
          = Some l'
          ∧ payment_status l' = force_done
          ∧ settlement l' = settlement l
          ∧ calls (fst (_cloverHandleResponse response line st)) = calls st.
Proof.
  intros Hl Herr.
  assert (_cloverHandleResponse response line st
          = (update_line line (setPaymentStatus force_done)
               (_showError
                  (if is_num (num 401) (get "status_code" (get "error" response))
                   then _t "Authentication failed. Please check your Clover credentials."
                   else _t1 "Clover error: %s"
                          (or (get "message" (get "error" response))
                              (VStr "Unknown error")))
                  st),
             RBool false)) as Heq.
  { unfold _cloverHandleResponse.
    rewrite (truthy_get_object _ _ Herr), Herr. simpl.
    by destruct (is_num (num 401) _). }
  assert (sale_reply_outcome response line st = TerminalError) as Hout.
  { unfold sale_reply_outcome. rewrite Heq.
    rewrite lookup_update_line_eq. simpl. by rewrite Hl. }
  split; [done|]. split; [done|]. split; [by rewrite Hout|].
  rewrite Heq. simpl. exists (setPaymentStatus force_done l).
  rewrite list_lookup_alter_eq. simpl. by rewrite Hl.
Qed.

Lemma error_field_wins_witness :
  let response :=
    VObj [("error", VObj [("status_code", VNum (num 401)); ("message", VStr "no")]);
          ("success", VBool true); ("result", VStr "SUCCESS");
          ("payment", VObj [("id", VStr "p1")])] in
  payment_ids st0 !! 0%nat = Some (new_line "l1" (cents 1234) "clover")
  ∧ truthy (get "error" response) = true
  ∧ sale_reply_outcome response 0 st0 = TerminalError
  ∧ body <$> head (dialogs (fst (_cloverHandleResponse response 0 st0)))
    = Some (_t "Authentication failed. Please check your Clover credentials.").
Proof.
  intros response.
  split; [reflexivity|]. split; [reflexivity|].
  pose proof (error_field_wins response 0 (new_line "l1" (cents 1234) "clover")
                st0 eq_refl eq_refl) as (Heq & Hout & _).
  split; [exact Hout|]. rewrite Heq. reflexivity.
Defined.

(** C3, as the code has it. A sale reply that is absent ([null],
    [undefined] or another falsy value) is a terminal error: the dialog
    says that no response was received, the line is forced done and
    [false] is returned.  The empty object [{}] is not absent: it falls
    through to the last rule, the dialog says the payment was declined
    ("Payment was not approved") and the line goes to [retry]. *)
Theorem absent_reply_forces_done response line l st :
  payment_ids st !! line = Some l ->
  truthy response = false ->
  _cloverHandleResponse response line st
  = (update_line line (setPaymentStatus force_done)
       (_showError (_t "No response received from Clover terminal.") st),
     RBool false)
  ∧ sale_reply_outcome response line st = TerminalError
  ∧ _cloverHandleResponse (VObj []) line st
    = (update_line line (setPaymentStatus retry)
         (_showError
            (_t1 "Payment declined: %s" (VStr "Payment was not approved")) st),
       RBool false)
  ∧ sale_reply_outcome (VObj []) line st = Declined.
Proof.
  intros Hl Hfalsy.
  assert (_cloverHandleResponse response line st
          = (update_line line (setPaymentStatus force_done)
               (_showError (_t "No response received from Clover terminal.") st),
             RBool false)) as Heq.
  { unfold _cloverHandleResponse. by rewrite Hfalsy. }
  split; [done|]. split.
  { unfold sale_reply_outcome. rewrite Heq, lookup_update_line_eq.
    simpl. by rewrite Hl. }
  split; [done|].
  unfold sale_reply_outcome. simpl.
  rewrite list_lookup_alter_eq, Hl. done.
Qed.

Lemma absent_reply_forces_done_witness :
  payment_ids st0 !! 0%nat = Some (new_line "l1" (cents 1234) "clover")
  ∧ truthy VNull = false
  ∧ sale_reply_outcome VNull 0 st0 = TerminalError
  ∧ sale_reply_outcome (VObj []) 0 st0 = Declined.
Proof.
  split; [reflexivity|]. split; [reflexivity|].
  pose proof (absent_reply_forces_done VNull 0 _ st0 eq_refl eq_refl)
    as (_ & Hnull & _ & Hempty).
  split; [exact Hnull | exact Hempty].
Defined.

(** C3, as the claim has it, fails: the reply [{}] is classified as
    declined, with the message "Payment was not approved", and the line
    goes to [retry], not to [force_done]. *)
Lemma empty_object_reply_is_declined :
  sale_reply_outcome (VObj []) 0 st0 = Declined
  ∧ sale_reply_outcome (VObj []) 0 st0 ≠ TerminalError
  ∧ payment_status
      <$> payment_ids (fst (_cloverHandleResponse (VObj []) 0 st0)) !! 0%nat
    = Some retry
  ∧ payment_status
      <$> payment_ids (fst (_cloverHandleResponse (VObj []) 0 st0)) !! 0%nat
    ≠ Some force_done
  ∧ body <$> head (dialogs (fst (_cloverHandleResponse (VObj []) 0 st0)))
    = Some (_t1 "Payment declined: %s" (VStr "Payment was not approved")).
Proof. vm_compute. repeat split; discriminate. Qed.

(** ** Initiation *)

(** C5. A line with a negative amount is refused before any call: the
    request resolves to [false], one dialog says why, and neither the
    lines (so no status) nor the list of proxy calls change, however the
    backend would have answered. *)
Theorem negative_amount_rejected u line l welcome_reply sale_reply st :
  find_uuid u (payment_ids st) = Some line ->
  payment_ids st !! line = Some l ->
  Js.lt (amount l) (num 0) = true ->
  sendPaymentRequest u welcome_reply sale_reply st
  = (_showError (_t "Cannot process transactions with negative amount.") st,
     Fulfilled (RBool false))
  ∧ payment_ids (fst (sendPaymentRequest u welcome_reply sale_reply st))
    = payment_ids st
  ∧ calls (fst (sendPaymentRequest u welcome_reply sale_reply st)) = calls st.
Proof.
  intros Hfind Hl Hlt.
  assert (sendPaymentRequest u welcome_reply sale_reply st
          = (_showError (_t "Cannot process transactions with negative amount.") st,
             Fulfilled (RBool false))) as Heq.
  { unfold sendPaymentRequest, _cloverPay. rewrite Hfind. simpl.
    rewrite Hl. simpl. by rewrite Hlt. }
  rewrite Heq. done.
Qed.

Lemma negative_amount_rejected_witness :
  find_uuid "l1" (payment_ids st_negative) = Some 0%nat
  ∧ payment_ids st_negative !! 0%nat = Some (new_line "l1" (num (-5)) "clover")
  ∧ Js.lt (amount (new_line "l1" (num (-5)) "clover")) (num 0) = true
  ∧ snd (sendPaymentRequest "l1" (Reply (VObj [])) (Reply success_reply)
           st_negative)
    = Fulfilled (RBool false)
  ∧ payment_ids
      (fst (sendPaymentRequest "l1" (Reply (VObj [])) (Reply success_reply)
              st_negative))
    = payment_ids st_negative
  ∧ calls
      (fst (sendPaymentRequest "l1" (Reply (VObj [])) (Reply success_reply)
              st_negative))
    = [].
Proof.
  split; [reflexivity|]. split; [reflexivity|]. split; [reflexivity|].
  pose proof (negative_amount_rejected "l1" 0 (new_line "l1" (num (-5)) "clover")
                (Reply (VObj [])) (Reply success_reply) st_negative
                eq_refl eq_refl eq_refl) as (Heq & Hlines & Hcalls).
  split; [by rewrite Heq|]. split; [exact Hlines | exact Hcalls].
Defined.

(** ** Connectivity failures *)


Lemma _handleOdooConnectionFailure_idle data st :
  pendingCloverLine st = None ->
  _handleOdooConnectionFailure data st
  = (_showError (body connectivity_dialog) st, default_data data).
Proof. intros H. unfold _handleOdooConnectionFailure. by rewrite H. Qed.




(** With no line pending, a transport failure changes no line. *)
Lemma connectivity_failure_idle data operation e st :
  pendingCloverLine st = None ->
  snd (_callClover data operation (TransportError e) st) = inr (default_data e)
  ∧ payment_ids (fst (_callClover data operation (TransportError e) st))
    = payment_ids st.
Proof.
  intros Hidle. unfold _callClover, _callClover_settle.
  by rewrite (_handleOdooConnectionFailure_idle e); [|done].
Qed.

(** ** Amounts *)







(** 12.34 goes out as 1234 and comes back as 12.34; 1.005, a double just
    below the decimal it is written as, goes out as 100. *)
Example amount_12_34 :
  pd_amount <$> _cloverPayData st0 = Some (num 1234)
  ∧ clover_amount_of (VObj [("amount", VNum (num 1234))]) (num 0)
    = Amount (cents 1234)
  ∧ Math_round (PrimFloat.mul (PrimFloat.div (num 1005) (num 1000)) (num 100))
    = num 100
  ∧ Math_round (PrimFloat.div (num (-5)) (num 2)) = num (-2)
  ∧ Math_round (PrimFloat.div (num 5) (num 2)) = num 3.
Proof. vm_compute. repeat split. Qed.

(** C10. On the success path, when [payment.amount] is falsy (absent,
    [null], or the number 0) the amount kept on the line is the amount of
    the line itself; a reported amount of 0 is not what is kept. *)
Theorem falsy_terminal_amount_falls_back response line l st :
  payment_ids st !! line = Some l ->
  truthy (get "amount" (or (get "payment" response) response)) = false ->
  clover_amount
    <$> payment_ids (fst (_handleSuccessResponse response line st)) !! line
  = Some (Some (Amount (amount l))).
Proof.
  intros Hl Hfalsy. unfold _handleSuccessResponse. simpl.
  rewrite list_lookup_alter_eq, Hl. simpl.
  unfold clover_amount_of. by rewrite Hfalsy.
Qed.

Lemma falsy_terminal_amount_falls_back_witness :
  let response :=
    VObj [("payment", VObj [("id", VStr "p1"); ("amount", VNum (num 0))])] in
  payment_ids st_two !! 0%nat = Some (new_line "l1" (num 5) "clover")
  ∧ truthy (get "amount" (or (get "payment" response) response)) = false
  ∧ clover_amount
      <$> payment_ids (fst (_handleSuccessResponse response 0 st_two)) !! 0%nat
    = Some (Some (Amount (num 5))).
Proof.
  intros response. split; [reflexivity|]. split; [reflexivity|].
  exact (falsy_terminal_amount_falls_back response 0 (new_line "l1" (num 5) "clover")
           st_two eq_refl eq_refl).
Defined.

(** ** Notifications *)

(** A notification for a line that no resolver waits for: the line gets
    its status from [handlePaymentResponse]. *)
Lemma handleCloverStatusResponse_no_resolver notification line l st :
  pendingCloverLine st = Some line ->
  payment_ids st !! line = Some l ->
  paymentLineResolvers st !! uuid l = None ->
  truthy notification = true ->
  handleCloverStatusResponse (Reply notification) st
  = (update_line line (handlePaymentResponse (truthy (isSuccess notification)))
       (if truthy (isSuccess notification)
        then fst (_handleSuccessResponse notification line st)
        else _showError
               (_t1 "Payment failed: %s"
                  (or (get "failureMessage"
                         (or (get "payment" notification) notification))
                      (or (get "reason"
                             (or (get "payment" notification) notification))
                          (VStr "Payment failed")))) st),
     None).
Proof.
  intros Hpending Hl Hnone Htruthy. unfold handleCloverStatusResponse.
  rewrite Htruthy, Hpending. simpl. rewrite Hl. simpl.
  destruct (truthy (isSuccess notification)); simpl; by rewrite Hnone.
Qed.

(** A notification for a line that a resolver waits for: the resolver is
    called and deleted, the status of the line is left to the one who
    awaits the promise. *)
Lemma handleCloverStatusResponse_resolver notification line l p st :
  pendingCloverLine st = Some line ->
  payment_ids st !! line = Some l ->
  paymentLineResolvers st !! uuid l = Some p ->
  truthy notification = true ->
  handleCloverStatusResponse (Reply notification) st
  = (set_resolvers (delete (uuid l) (paymentLineResolvers st))
       (resolve p (isSuccess notification)
          (if truthy (isSuccess notification)
           then fst (_handleSuccessResponse notification line st)
           else _showError
                  (_t1 "Payment failed: %s"
                     (or (get "failureMessage"
                            (or (get "payment" notification) notification))
                         (or (get "reason"
                                (or (get "payment" notification) notification))
                             (VStr "Payment failed")))) st)),
     None).
Proof.
  intros Hpending Hl Hsome Htruthy. unfold handleCloverStatusResponse.
  rewrite Htruthy, Hpending. simpl. rewrite Hl. simpl.
  destruct (truthy (isSuccess notification)); simpl; by rewrite Hsome.
Qed.

(** What makes a notification a success makes a sale reply pass the
    success test of [_cloverHandleResponse]. *)
Lemma isSuccess_success_test response :
  truthy (isSuccess response) = true ->
  truthy (get "success" response)
  || is_str "SUCCESS" (get "result" response)
  || truthy (get "payment" response) = true.
Proof.
  unfold isSuccess, or.
  destruct (truthy (get "payment" response)) eqn:Hp; [by rewrite orb_true_r|].
  destruct (is_str "SUCCESS" (get "result" response)) eqn:Hr;
    [by rewrite orb_true_r|].
  by intros ->.
Qed.

(** C2, as the code has it. The two paths do not share their rules. A
    notification is only told apart as a success ([payment.result] is
    [SUCCESS] on the payment sub-object or on the payload itself, or the
    [success] flag is set) or a failure; it is never pending nor a
    terminal error.  The paths agree in one direction: a payload without
    [error] that is a success as a notification is a success as a sale
    reply. *)
Theorem notification_success_is_sale_success response line l st :
  pendingCloverLine st = Some line ->
  payment_ids st !! line = Some l ->
  paymentLineResolvers st !! uuid l = None ->
  truthy response = true ->
  truthy (get "error" response) = false ->
  notification_outcome response st
  = Some (if truthy (isSuccess response) then Success else Declined)
  ∧ (notification_outcome response st = Some Success ->
     sale_reply_outcome response line st = Success).
Proof.
  intros Hpending Hl Hnone Htruthy Herr.
  assert (notification_outcome response st
          = Some (if truthy (isSuccess response) then Success else Declined))
    as Hout.
  { unfold notification_outcome.
    rewrite (handleCloverStatusResponse_no_resolver _ _ _ _ Hpending Hl Hnone
               Htruthy), Hpending.
    simpl. rewrite list_lookup_alter_eq.
    destruct (truthy (isSuccess response)); simpl.
    - rewrite list_lookup_alter_eq, Hl. done.
    - rewrite Hl. done. }
  split; [done|]. rewrite Hout.
  destruct (truthy (isSuccess response)) eqn:Hs; [|done]. intros _.
  unfold sale_reply_outcome, _cloverHandleResponse.
  by rewrite Htruthy, Herr, (isSuccess_success_test _ Hs).
Qed.

Lemma notification_success_is_sale_success_witness :
  pendingCloverLine st0 = Some 0%nat
  ∧ payment_ids st0 !! 0%nat = Some (new_line "l1" (cents 1234) "clover")
  ∧ paymentLineResolvers st0 !! "l1" = None
  ∧ truthy (success_notification "p1") = true
  ∧ truthy (get "error" (success_notification "p1")) = false
  ∧ notification_outcome (success_notification "p1") st0 = Some Success
  ∧ sale_reply_outcome (success_notification "p1") 0 st0 = Success.
Proof.
  split; [reflexivity|]. split; [reflexivity|]. split; [reflexivity|].
  split; [reflexivity|]. split; [reflexivity|].
  pose proof (notification_success_is_sale_success (success_notification "p1")
                0 (new_line "l1" (cents 1234) "clover") st0
                eq_refl eq_refl eq_refl eq_refl eq_refl) as [Hout Himp].
  split; [exact Hout | exact (Himp Hout)].
Defined.

(** C2, as the claim has it, fails: a payload with only a payment
    sub-object is a success as a sale reply and a failure as a
    notification; a [PENDING] payload is pending as a sale reply and a
    failure as a notification; and a payload with both [error] and the
    [success] flag is a terminal error as a sale reply and a success as a
    notification. *)
Lemma paths_classify_differently :
  sale_reply_outcome (VObj [("payment", VObj [("id", VStr "p1")])]) 0 st0
  = Success
  ∧ notification_outcome (VObj [("payment", VObj [("id", VStr "p1")])]) st0
    = Some Declined
  ∧ sale_reply_outcome pending_reply 0 st0 = Pending
  ∧ notification_outcome pending_reply st0 = Some Declined
  ∧ sale_reply_outcome
      (VObj [("error", VObj [("message", VStr "no")]); ("success", VBool true)])
      0 st0 = TerminalError
  ∧ notification_outcome
      (VObj [("error", VObj [("message", VStr "no")]); ("success", VBool true)])
      st0 = Some Success.
Proof. vm_compute. repeat split. Qed.

(** ** The [thank_you] call *)

(** C7, as the code has it. The [thank_you] call is not awaited, so its
    failure changes neither what the success path returns ([true]) nor any
    settlement field; but it passes through the handler of connectivity
    failures like any other call: the connectivity dialog is shown and the
    line that is pending at that moment, if there is one, goes to
    [retry].  A [thank_you] call that succeeds changes nothing. *)
Theorem thank_you_failure_effects e st :
  dialogs (fst (_callClover_settle (TransportError e) st))
  = connectivity_dialog :: dialogs st
  ∧ (∀ j l, payment_ids st !! j = Some l ->
       ∃ l', payment_ids (fst (_callClover_settle (TransportError e) st)) !! j
             = Some l'
             ∧ settlement l' = settlement l
             ∧ payment_status l'
               = if decide (pendingCloverLine st = Some j) then retry
                 else payment_status l)
  ∧ paymentLineResolvers (fst (_callClover_settle (TransportError e) st))
    = paymentLineResolvers st
  ∧ promises (fst (_callClover_settle (TransportError e) st)) = promises st
  ∧ (∀ v, _callClover_settle (Reply v) st = (st, inl v))
  ∧ (∀ response line,
       snd (_handleSuccessResponse response line st) = true
       ∧ head (calls (fst (_handleSuccessResponse response line st)))
         = Some {| call_data := Empty_data; call_operation := "thank_you" |}).
Proof.
  unfold _callClover_settle, _handleOdooConnectionFailure.
  destruct (pendingCloverLine st) as [line|] eqn:Hpending; simpl.
  - split; [done|]. split; [|done].
    intros j l Hl. case_decide as Hj.
    + simplify_eq. rewrite list_lookup_alter_eq, Hl. simpl. eauto.
    + rewrite list_lookup_alter_ne by congruence. eauto.
  - split; [done|]. split; [|done].
    intros j l Hl. eauto.
Qed.

(** C7, as the claim has it, fails. A first line is paid and marked done
    by the payment screen while a second clover line is still pending;
    then the [thank_you] call settles.  When it fails the operator sees
    the connectivity dialog and the second line is in [retry]; when it
    succeeds there is no dialog and the second line is still pending. *)
Lemma thank_you_failure_is_not_swallowed :
  let paid :=
    update_line 0 (handlePaymentResponse true)
      (fst (sendPaymentRequest "l1" (Reply (VObj [])) (Reply success_reply)
              st_two)) in
  let failed := fst (_callClover_settle (TransportError transport_error) paid) in
  let succeeded := fst (_callClover_settle (Reply (VObj [])) paid) in
  snd (sendPaymentRequest "l1" (Reply (VObj [])) (Reply success_reply) st_two)
  = Fulfilled (RBool true)
  ∧ head (calls paid)
    = Some {| call_data := Empty_data; call_operation := "thank_you" |}
  ∧ payment_status <$> payment_ids paid !! 0%nat = Some done
  ∧ dialogs succeeded = []
  ∧ dialogs failed = [connectivity_dialog]
  ∧ payment_status <$> payment_ids succeeded !! 1%nat = Some pending
  ∧ payment_status <$> payment_ids failed !! 1%nat = Some retry
  ∧ dialogs failed ≠ dialogs succeeded
  ∧ payment_status <$> payment_ids failed !! 1%nat
    ≠ payment_status <$> payment_ids succeeded !! 1%nat.
Proof. vm_compute. repeat split; discriminate. Qed.

(** ** The registry of resolvers *)

Lemma registry_wf_same st st' :
  paymentLineResolvers st' = paymentLineResolvers st ->
  promises st' = promises st ->
  registry_wf st -> registry_wf st'.
Proof. unfold registry_wf. intros -> ->. done. Qed.

Ltac same_registry :=
  eapply registry_wf_same; [reflexivity | reflexivity | eassumption].

Lemma registry_wf_setup p ls sel : registry_wf (setup p ls sel).
Proof. split; simpl; intros *; by rewrite lookup_empty. Qed.

(** Parking a waiter keeps the registry sound: the promise is new, so
    nobody else holds its resolver. *)
Lemma registry_wf_waitForPaymentConfirmation line st :
  registry_wf st -> registry_wf (fst (waitForPaymentConfirmation line st)).
Proof.
  intros [Hpending Hinj]. unfold waitForPaymentConfirmation.
  destruct (payment_ids st !! line) as [l|]; [|done]. simpl.
  assert (∀ u, paymentLineResolvers st !! u ≠ Some (length (promises st)))
    as Hfresh.
  { intros u Hu. apply Hpending, lookup_lt_Some in Hu. lia. }
  split; simpl.
  - intros u p. rewrite lookup_insert. case_decide.
    + intros [= <-]. by rewrite lookup_app_r, Nat.sub_diag.
    + intros Hu. by apply lookup_app_l_Some, (Hpending u).
  - intros u u' p. rewrite !lookup_insert.
    repeat case_decide; simplify_eq; try done.
    + intros [= <-] Hu'. by destruct (Hfresh u').
    + intros Hu [= <-]. by destruct (Hfresh u).
    + apply Hinj.
Qed.

(** Calling the resolver of a line and deleting it keeps the registry
    sound: the promise it fulfils is the promise of no other line. *)
Lemma registry_wf_resolve_delete u p v st :
  registry_wf st ->
  paymentLineResolvers st !! u = Some p ->
  registry_wf (set_resolvers (delete u (paymentLineResolvers st))
                 (resolve p v st)).
Proof.
  intros [Hpending Hinj] Hu. unfold resolve.
  rewrite (Hpending _ _ Hu). split; simpl.
  - intros u' p'. rewrite lookup_delete. case_decide; [done|]. intros Hu'.
    rewrite list_lookup_insert_ne; [by apply (Hpending u')|].
    intros <-. by destruct (Hinj _ _ _ Hu Hu').
  - intros u1 u2 p'. rewrite !lookup_delete.
    repeat case_decide; try done. apply Hinj.
Qed.

Lemma _callClover_settle_registry reply st :
  paymentLineResolvers (fst (_callClover_settle reply st))
  = paymentLineResolvers st
  ∧ promises (fst (_callClover_settle reply st)) = promises st.
Proof.
  destruct reply; [done|].
  unfold _callClover_settle, _handleOdooConnectionFailure.
  by destruct (pendingCloverLine st).
Qed.

Lemma registry_wf_callClover data operation reply st :
  registry_wf st -> registry_wf (fst (_callClover data operation reply st)).
Proof.
  intros Hwf. unfold _callClover.
  destruct (_callClover_settle_registry reply
              (_callClover_send data operation st)) as [Hr Hp].
  eapply registry_wf_same; [exact Hr | exact Hp | done].
Qed.

Lemma registry_wf_cloverHandleResponse response line st :
  registry_wf st ->
  registry_wf (fst (_cloverHandleResponse response line st)).
Proof.
  intros Hwf. unfold _cloverHandleResponse.
  destruct (negb (truthy response)); [same_registry|].
  destruct (truthy (get "error" response)).
  { destruct (is_num (num 401) _); same_registry. }
  destruct (_ || _ || _); [same_registry|].
  destruct (_ || _); [|same_registry].
  apply registry_wf_waitForPaymentConfirmation. same_registry.
Qed.

Lemma registry_wf_cloverPay u welcome_reply sale_reply st :
  registry_wf st ->
  registry_wf (fst (_cloverPay u welcome_reply sale_reply st)).
Proof.
  intros Hwf. unfold _cloverPay.
  destruct (find_uuid u (payment_ids st) ≫= _) as [[line l]|]; [|done].
  destruct (Js.lt (amount l) (num 0)); [same_registry|].
  pose proof (registry_wf_callClover Empty_data "welcome" welcome_reply st Hwf)
    as Hwf1.
  destruct (_callClover Empty_data "welcome" welcome_reply st)
    as [st1 [v|reason]]; [|done].
  simpl in Hwf1. destruct (_cloverPayData st1) as [data|]; [|done].
  pose proof (registry_wf_callClover (Sale_data data) "sale" sale_reply st1 Hwf1)
    as Hwf2.
  destruct (_callClover (Sale_data data) "sale" sale_reply st1)
    as [st2 [response|error]]; simpl in Hwf2.
  - pose proof (registry_wf_cloverHandleResponse response line st2 Hwf2) as Hwf3.
    by destruct (_cloverHandleResponse response line st2).
  - destruct error; try done; same_registry.
Qed.

Lemma registry_wf_handleCloverStatusResponse reply st :
  registry_wf st ->
  registry_wf (fst (handleCloverStatusResponse reply st)).
Proof.
  intros Hwf. unfold handleCloverStatusResponse.
  destruct reply as [notification|e]; [|done].
  destruct (negb (truthy notification)).
  { unfold _handleOdooConnectionFailure.
    destruct (pendingCloverLine st); same_registry. }
  destruct (pendingCloverLine st ≫= _) as [[line l]|]; [|done].
  match goal with
  | |- context [paymentLineResolvers ?s !! uuid l] =>
      assert (registry_wf s) as Hwf1
        by (destruct (truthy (isSuccess notification)); same_registry);
      destruct (paymentLineResolvers s !! uuid l) as [p|] eqn:Hp
  end.
  - by apply registry_wf_resolve_delete.
  - simpl. eapply registry_wf_same; [..|exact Hwf1]; done.
Qed.

Lemma registry_wf_cloverCancel ignoreError reply st :
  registry_wf st -> registry_wf (fst (_cloverCancel ignoreError reply st)).
Proof.
  intros Hwf. unfold _cloverCancel.
  pose proof (registry_wf_callClover Empty_data "cancel" reply st Hwf) as Hwf1.
  destruct (_callClover Empty_data "cancel" reply st) as [st1 [response|e]];
    simpl in Hwf1.
  - destruct (_ && _); [same_registry | done].
  - destruct (negb ignoreError); [same_registry | done].
Qed.

Lemma registry_wf_callClover_settle reply st :
  registry_wf st -> registry_wf (fst (_callClover_settle reply st)).
Proof.
  intros Hwf. destruct (_callClover_settle_registry reply st) as [Hr Hp].
  eapply registry_wf_same; [exact Hr | exact Hp | done].
Qed.

Lemma registry_wf_fire ev st : registry_wf st -> registry_wf (fire ev st).
Proof.
  intros Hwf. destruct ev; simpl.
  - unfold _cloverPay_begin.
    destruct (find_uuid u (payment_ids st) ≫= _) as [[line l]|]; [|done].
    destruct (Js.lt (amount l) (num 0)); same_registry.
  - unfold _cloverPay_welcomed.
    pose proof (registry_wf_callClover_settle reply st Hwf) as Hwf1.
    destruct (_callClover_settle reply st) as [st1 [v|reason]]; [|done].
    simpl in Hwf1. destruct (_cloverPayData st1); [same_registry | done].
  - unfold _cloverPay_sold.
    pose proof (registry_wf_callClover_settle reply st Hwf) as Hwf1.
    destruct (_callClover_settle reply st) as [st2 [response|error]];
      simpl in Hwf1.
    + pose proof (registry_wf_cloverHandleResponse response line st2 Hwf1).
      by destruct (_cloverHandleResponse response line st2).
    + destruct error; try done; same_registry.
  - same_registry.
  - unfold _cloverCancel_settled.
    pose proof (registry_wf_callClover_settle reply st Hwf) as Hwf1.
    destruct (_callClover_settle reply st) as [st1 [response|e]];
      simpl in Hwf1.
    + destruct (_ && _); [same_registry | done].
    + destruct (negb ignoreError); [same_registry | done].
  - by apply registry_wf_handleCloverStatusResponse.
  - by apply registry_wf_callClover_settle.
Qed.

Lemma registry_wf_step st st' : step st st' -> registry_wf st -> registry_wf st'.
Proof.
  intros Hstep Hwf. destruct Hstep.
  - by apply registry_wf_cloverPay.
  - by apply registry_wf_cloverCancel.
  - by apply registry_wf_cloverCancel.
  - by apply registry_wf_handleCloverStatusResponse.
  - by apply registry_wf_callClover_settle.
  - same_registry.
  - by apply registry_wf_fire.
Qed.

Lemma reachable_registry_wf st : reachable st -> registry_wf st.
Proof.
  induction 1 as [p ls sel | st st' _ IH Hstep].
  - apply registry_wf_setup.
  - by apply (registry_wf_step st).
Qed.

(** C4, as the code has it. The registry holds at most one resolver per
    line identity in every reachable state: it is a map keyed by uuid,
    each resolver in it belongs to a promise still pending and no two
    lines share one.  A second registration for a line whose waiter is
    outstanding is not guarded: the new resolver replaces the old one, no
    dialog is shown, and the first promise is left pending with no
    resolver in the registry to fulfil it. *)
Theorem second_waiter_replaces_first line l p st :
  reachable st ->
  payment_ids st !! line = Some l ->
  paymentLineResolvers st !! uuid l = Some p ->
  registry_wf st
  ∧ (∀ u p1 p2, paymentLineResolvers st !! u = Some p1 ->
                paymentLineResolvers st !! u = Some p2 -> p1 = p2)
  ∧ waitForPaymentConfirmation line st
    = (set_resolvers (<[uuid l := length (promises st)]> (paymentLineResolvers st))
         (set_promises (promises st ++ [None]) st),
       RPromise (length (promises st)))
  ∧ length (promises st) ≠ p
  ∧ dialogs (fst (waitForPaymentConfirmation line st)) = dialogs st
  ∧ promises (fst (waitForPaymentConfirmation line st)) !! p = Some None
  ∧ (∀ u, paymentLineResolvers (fst (waitForPaymentConfirmation line st)) !! u
          ≠ Some p)
  ∧ registry_wf (fst (waitForPaymentConfirmation line st)).
Proof.
  intros Hreach Hl Hp.
  pose proof (reachable_registry_wf _ Hreach) as Hwf.
  pose proof Hwf as [Hpending Hinj].
  pose proof (Hpending _ _ Hp) as Hpp.
  split; [done|]. split; [congruence|].
  split; [unfold waitForPaymentConfirmation; by rewrite Hl|].
  split; [apply lookup_lt_Some in Hpp; lia|].
  split; [unfold waitForPaymentConfirmation; by rewrite Hl|].
  split; [unfold waitForPaymentConfirmation; rewrite Hl; simpl;
          by apply lookup_app_l_Some|].
  split; [|by apply registry_wf_waitForPaymentConfirmation].
  intros u. unfold waitForPaymentConfirmation. rewrite Hl. simpl.
  rewrite lookup_insert. case_decide.
  - intros [= Heq]. apply lookup_lt_Some in Hpp. lia.
  - intros Hu. destruct (Hinj _ _ _ Hp Hu). done.
Qed.

Lemma second_waiter_replaces_first_witness :
  reachable st_waiting
  ∧ payment_ids st_waiting !! 0%nat
    = Some (setPaymentStatus waitingCard (new_line "l1" (cents 1234) "clover"))
  ∧ paymentLineResolvers st_waiting !! "l1" = Some 0%nat
  ∧ snd (waitForPaymentConfirmation 0 st_waiting) = RPromise 1
  ∧ dialogs (fst (waitForPaymentConfirmation 0 st_waiting)) = []
  ∧ promises (fst (waitForPaymentConfirmation 0 st_waiting)) !! 0%nat = Some None
  ∧ (∀ u, paymentLineResolvers (fst (waitForPaymentConfirmation 0 st_waiting)) !! u
          ≠ Some 0%nat).
Proof.
  assert (reachable st_waiting) as Hreach.
  { apply (reachable_step st0); [apply reachable_setup|].
    apply step_sendPaymentRequest. }
  split; [exact Hreach|]. split; [reflexivity|]. split; [reflexivity|].
  pose proof (second_waiter_replaces_first 0
                (setPaymentStatus waitingCard (new_line "l1" (cents 1234) "clover"))
                0 st_waiting Hreach eq_refl eq_refl)
    as (_ & _ & Heq & _ & Hdialogs & Hpromise & Horphan & _).
  split; [by rewrite Heq|]. split; [exact Hdialogs|].
  split; [exact Hpromise | exact Horphan].
Defined.

(** C4, as the claim has it, fails: a second sale answered [PENDING] for a
    line whose waiter is outstanding replaces the resolver of promise 0
    by the resolver of promise 1; no dialog warns of it, the registration
    is not refused, and promise 0 stays pending. *)
Lemma second_waiter_is_not_guarded :
  let st' :=
    fst (sendPaymentRequest "l1" (Reply (VObj [])) (Reply pending_reply)
           st_waiting) in
  paymentLineResolvers st_waiting !! "l1" = Some 0%nat
  ∧ promises st_waiting = [None]
  ∧ snd (sendPaymentRequest "l1" (Reply (VObj [])) (Reply pending_reply)
           st_waiting)
    = Fulfilled (RPromise 1)
  ∧ paymentLineResolvers st' !! "l1" = Some 1%nat
  ∧ paymentLineResolvers st' ≠ paymentLineResolvers st_waiting
  ∧ dialogs st' = dialogs st_waiting
  ∧ promises st' = [None; None].
Proof.
  intros st'.
  assert (paymentLineResolvers st' !! "l1" = Some 1%nat) as Hnew
    by (vm_compute; reflexivity).
  assert (paymentLineResolvers st_waiting !! "l1" = Some 0%nat) as Hold
    by (vm_compute; reflexivity).
  split; [exact Hold|]. split; [reflexivity|].
  split; [vm_compute; reflexivity|]. split; [exact Hnew|].
  split; [intros Heq; rewrite Heq, Hold in Hnew; discriminate|].
  split; vm_compute; reflexivity.
Qed.

(** ** Two deliveries for one waiter *)

Lemma resolve_pending p v st :
  promises st !! p = Some None ->
  resolve p v st = set_promises (<[p := Some v]> (promises st)) st.
Proof. intros H. unfold resolve. by rewrite H. Qed.

(** C1, as the code has it. The first notification for a line with a
    waiter fulfils the promise with [isSuccess] and deletes the resolver,
    leaving the status of the line to the one who awaits the promise.  A
    second notification for the same line fulfils no promise and touches
    no resolver, but it is not a no-op on the line: with no resolver to
    call, the method falls back on [handlePaymentResponse], which sets the
    line to [done] or [retry], after writing the settlement fields again
    when the notification is a success. *)
Theorem second_delivery_falls_back n1 n2 line l p st :
  pendingCloverLine st = Some line ->
  payment_ids st !! line = Some l ->
  paymentLineResolvers st !! uuid l = Some p ->
  promises st !! p = Some None ->
  truthy n1 = true ->
  truthy n2 = true ->
  let st1 := fst (handleCloverStatusResponse (Reply n1) st) in
  let st2 := fst (handleCloverStatusResponse (Reply n2) st1) in
  let l1 := if truthy (isSuccess n1) then settle_line n1 l else l in
  paymentLineResolvers st1 = delete (uuid l) (paymentLineResolvers st)
  ∧ promises st1 = <[p := Some (isSuccess n1)]> (promises st)
  ∧ payment_ids st1 !! line = Some l1
  ∧ pendingCloverLine st1 = Some line
  ∧ paymentLineResolvers st2 = paymentLineResolvers st1
  ∧ promises st2 = promises st1
  ∧ payment_ids st2 !! line
    = Some (handlePaymentResponse (truthy (isSuccess n2))
              (if truthy (isSuccess n2) then settle_line n2 l1 else l1)).
Proof.
  intros Hpending Hl Hp Hpp Hn1 Hn2 st1 st2 l1.
  assert (paymentLineResolvers st1 = delete (uuid l) (paymentLineResolvers st)
          ∧ promises st1 = <[p := Some (isSuccess n1)]> (promises st)
          ∧ payment_ids st1 !! line = Some l1
          ∧ pendingCloverLine st1 = Some line) as (Hr1 & Hp1 & Hl1 & Hpending1).
  { subst st1 l1.
    rewrite (handleCloverStatusResponse_resolver _ _ _ _ _ Hpending Hl Hp Hn1).
    destruct (truthy (isSuccess n1)).
    - rewrite resolve_pending by exact Hpp. simpl.
      rewrite list_lookup_alter_eq, Hl. repeat split.
      rewrite <- Hpending. apply pendingCloverLine_settle_line.
    - rewrite resolve_pending by exact Hpp. simpl. done. }
  repeat (split; [done|]).
  assert (uuid l1 = uuid l) as Hu by (subst l1; by destruct (truthy (isSuccess n1))).
  assert (paymentLineResolvers st1 !! uuid l1 = None) as Hnone.
  { by rewrite Hr1, Hu, lookup_delete_eq. }
  subst st2.
  rewrite (handleCloverStatusResponse_no_resolver _ _ _ _ Hpending1 Hl1 Hnone
             Hn2).
  simpl. rewrite list_lookup_alter_eq.
  destruct (truthy (isSuccess n2)); simpl.
  - rewrite list_lookup_alter_eq, Hl1. done.
  - rewrite Hl1. done.
Qed.

Lemma second_delivery_falls_back_witness :
  let st1 :=
    fst (handleCloverStatusResponse (Reply failure_notification) st_waiting) in
  let st2 :=
    fst (handleCloverStatusResponse (Reply (success_notification "p1")) st1) in
  pendingCloverLine st_waiting = Some 0%nat
  ∧ payment_ids st_waiting !! 0%nat
    = Some (setPaymentStatus waitingCard (new_line "l1" (cents 1234) "clover"))
  ∧ paymentLineResolvers st_waiting !! "l1" = Some 0%nat
  ∧ promises st_waiting !! 0%nat = Some None
  ∧ truthy failure_notification = true
  ∧ truthy (success_notification "p1") = true
  ∧ promises st2 = promises st1
  ∧ paymentLineResolvers st2 = paymentLineResolvers st1
  ∧ payment_status <$> payment_ids st2 !! 0%nat = Some done.
Proof.
  intros st1 st2.
  split; [reflexivity|]. split; [reflexivity|]. split; [reflexivity|].
  split; [reflexivity|]. split; [reflexivity|]. split; [reflexivity|].
  pose proof (second_delivery_falls_back failure_notification
                (success_notification "p1") 0
                (setPaymentStatus waitingCard (new_line "l1" (cents 1234) "clover"))
                0 st_waiting eq_refl eq_refl eq_refl eq_refl eq_refl eq_refl)
    as (_ & _ & _ & _ & Hr & Hp & Hl).
  split; [exact Hp|]. split; [exact Hr|].
  fold st1 in Hl. fold st2 in Hl. rewrite Hl. reflexivity.
Defined.

(** C1, as the claim has it, fails: on a line whose waiter has been
    consumed by a first notification (a failure: the promise is fulfilled
    with [undefined] and the resolver deleted), a second notification (a
    success) for the same line writes its settlement fields and moves it
    from [waitingCard] to [done]. *)
Lemma second_delivery_changes_line :
  let st1 :=
    fst (handleCloverStatusResponse (Reply failure_notification) st_waiting) in
  let st2 :=
    fst (handleCloverStatusResponse (Reply (success_notification "p1")) st1) in
  paymentLineResolvers st_waiting !! "l1" = Some 0%nat
  ∧ paymentLineResolvers st1 !! "l1" = None
  ∧ promises st1 = [Some VUndef]
  ∧ pendingCloverLine st1 = Some 0%nat
  ∧ payment_status <$> payment_ids st1 !! 0%nat = Some waitingCard
  ∧ payment_status <$> payment_ids st2 !! 0%nat = Some done
  ∧ clover_payment_id <$> payment_ids st1 !! 0%nat = Some VUndef
  ∧ clover_payment_id <$> payment_ids st2 !! 0%nat = Some (VStr "p1")
  ∧ payment_ids st2 !! 0%nat ≠ payment_ids st1 !! 0%nat.
Proof.
  intros st1 st2.
  assert (payment_status <$> payment_ids st1 !! 0%nat = Some waitingCard)
    as H1 by (vm_compute; reflexivity).
  assert (payment_status <$> payment_ids st2 !! 0%nat = Some done)
    as H2 by (vm_compute; reflexivity).
  repeat (split; [vm_compute; reflexivity|]).
  intros Heq. rewrite Heq, H1 in H2. discriminate.
Qed.

(** The same with the payment screen in between: the one who awaits the
    promise of the first notification gets [undefined] and sets the line
    to [retry]; the second notification then sets it to [done]. *)
Example second_delivery_after_payment_screen :
  let st1 :=
    fst (handleCloverStatusResponse (Reply failure_notification) st_waiting) in
  let screen := update_line 0 (handlePaymentResponse (truthy VUndef)) st1 in
  let st2 :=
    fst (handleCloverStatusResponse (Reply (success_notification "p1")) screen) in
  promises st1 = [Some VUndef]
  ∧ payment_status <$> payment_ids screen !! 0%nat = Some retry
  ∧ payment_status <$> payment_ids st2 !! 0%nat = Some done
  ∧ promises st2 = promises st1.
Proof. vm_compute. repeat split. Qed.

(** When the first notification is a success and the payment screen has
    set the line to [done], the line is no longer pending and a second
    notification does nothing. *)
Example second_delivery_after_done :
  let st1 :=
    fst (handleCloverStatusResponse (Reply (success_notification "p1"))
           st_waiting) in
  let screen := update_line 0 (handlePaymentResponse (truthy (VBool true))) st1 in
  promises st1 = [Some (VBool true)]
  ∧ pendingCloverLine screen = None
  ∧ handleCloverStatusResponse (Reply (success_notification "p2")) screen
    = (screen, None).
Proof. vm_compute. repeat split. Qed.

(** * Further properties of the payment methods *)

(** ** The sale reply, rule by rule *)

(** What [_cloverHandleResponse] does with a reply is decided by the reply
    alone, by the rules in their order: absent, error, success, pending,
    declined.  A success indicator hides a pending one, and an error hides
    both. *)
Theorem sale_reply_follows_table response line l st :
  payment_ids st !! line = Some l ->
  sale_reply_outcome response line st = sale_reply_table response.
Proof.
  intros Hl. unfold sale_reply_outcome, sale_reply_table, _cloverHandleResponse.
  destruct (negb (truthy response)).
  { simpl. by rewrite list_lookup_alter_eq, Hl. }
  destruct (truthy (get "error" response)).
  { destruct (is_num (num 401) _); simpl; by rewrite list_lookup_alter_eq, Hl. }
  destruct (_ || _ || _); [done|].
  destruct (_ || _).
  { unfold waitForPaymentConfirmation. simpl.
    by rewrite list_lookup_alter_eq, Hl. }
  simpl. by rewrite list_lookup_alter_eq, Hl.
Qed.

Lemma sale_reply_follows_table_witness :
  let response :=
    VObj [("success", VBool true); ("status", VStr "PENDING")] in
  payment_ids st0 !! 0%nat = Some (new_line "l1" (cents 1234) "clover")
  ∧ sale_reply_outcome response 0 st0 = Success.
Proof.
  intros response. split; [reflexivity|].
  rewrite (sale_reply_follows_table response 0 _ st0 eq_refl). reflexivity.
Defined.

(** ** Payment requests *)

Lemma find_uuid_line u line l st :
  find_uuid u (payment_ids st) = Some line ->
  payment_ids st !! line = Some l ->
  find_uuid u (payment_ids st) ≫= (λ i, pair i <$> payment_ids st !! i)
  = Some (line, l).
Proof. intros -> Hl. simpl. by rewrite Hl. Qed.

Lemma pendingCloverLine_callClover_send data operation st :
  pendingCloverLine (_callClover_send data operation st) = pendingCloverLine st.
Proof. done. Qed.

(** The calls [_cloverHandleResponse] adds: none, or the [thank_you]. *)
Lemma calls_cloverHandleResponse response line st :
  calls (fst (_cloverHandleResponse response line st)) = calls st
  ∨ calls (fst (_cloverHandleResponse response line st))
    = {| call_data := Empty_data; call_operation := "thank_you" |} :: calls st.
Proof.
  unfold _cloverHandleResponse.
  destruct (negb (truthy response)); [by left|].
  destruct (truthy (get "error" response)).
  { destruct (is_num (num 401) _); by left. }
  destruct (_ || _ || _); [by right|].
  destruct (_ || _); [|by left].
  unfold waitForPaymentConfirmation.
  destruct (payment_ids _ !! line); by left.
Qed.

(** A request makes its calls in one order: [welcome], then [sale], then
    [thank_you]; each only after the one before it was answered.  No other
    call is made and none is made twice. *)
Theorem request_calls_in_order u welcome_reply sale_reply st :
  ∃ cs,
    calls (fst (sendPaymentRequest u welcome_reply sale_reply st))
    = (cs ++ calls st)%list
    ∧ (operations cs = []
       ∨ operations cs = ["welcome"]
       ∨ operations cs = ["sale"; "welcome"]
       ∨ operations cs = ["thank_you"; "sale"; "welcome"])
    ∧ ("sale" ∈ operations cs ->
       ∃ v, welcome_reply = Reply v).
Proof.
  unfold sendPaymentRequest, _cloverPay.
  destruct (find_uuid u (payment_ids st) ≫= _) as [[line l]|];
    [|exists []; split; [done|]; split; [by left|]; by intros ?%elem_of_nil].
  destruct (Js.lt (amount l) (num 0));
    [exists []; split; [done|]; split; [by left|]; by intros ?%elem_of_nil|].
  destruct welcome_reply as [v|e].
  2: { exists [{| call_data := Empty_data; call_operation := "welcome" |}].
       unfold _callClover, _callClover_settle, _handleOdooConnectionFailure.
       destruct (pendingCloverLine _); simpl;
         (split; [done|]); (split; [by right; left|]);
         intros Hin; apply list_elem_of_singleton in Hin; discriminate. }
  unfold _callClover at 1. simpl.
  destruct (_cloverPayData _) as [data|].
  2: { exists [{| call_data := Empty_data; call_operation := "welcome" |}].
       split; [done|]. split; [by right; left|].
       intros Hin; apply list_elem_of_singleton in Hin; discriminate. }
  destruct sale_reply as [response|e]; unfold _callClover; simpl.
  - match goal with
    | |- context [_cloverHandleResponse response line ?s] =>
        destruct (calls_cloverHandleResponse response line s) as [Hc|Hc];
        destruct (_cloverHandleResponse response line s) as [st3 r] eqn:E3
    end; simpl in *.
    + exists [{| call_data := Sale_data data; call_operation := "sale" |};
              {| call_data := Empty_data; call_operation := "welcome" |}].
      split; [by rewrite Hc|]. split; [by right; right; left|]. eauto.
    + exists [{| call_data := Empty_data; call_operation := "thank_you" |};
              {| call_data := Sale_data data; call_operation := "sale" |};
              {| call_data := Empty_data; call_operation := "welcome" |}].
      split; [by rewrite Hc|]. split; [by right; right; right|]. eauto.
  - exists [{| call_data := Sale_data data; call_operation := "sale" |};
            {| call_data := Empty_data; call_operation := "welcome" |}].
    unfold _handleOdooConnectionFailure.
    destruct (pendingCloverLine _); destruct e; simpl;
      (split; [done|]); (split; [by right; right; left|]); eauto.
Qed.

(** A payment request for a uuid that no line of the order has fails with
    a [TypeError] before anything is done: no dialog, no call, no change. *)
Theorem request_for_unknown_uuid u welcome_reply sale_reply st :
  Forall (λ l, uuid l ≠ u) (payment_ids st) ->
  sendPaymentRequest u welcome_reply sale_reply st = (st, TypeError).
Proof.
  intros Hnone. unfold sendPaymentRequest, _cloverPay, find_uuid.
  apply (list_find_None (λ l, uuid l = u)) in Hnone. by rewrite Hnone.
Qed.

Lemma request_for_unknown_uuid_witness :
  Forall (λ l, uuid l ≠ "l9") (payment_ids st0)
  ∧ sendPaymentRequest "l9" (Reply (VObj [])) (Reply success_reply) st0
    = (st0, TypeError).
Proof.
  assert (Forall (λ l, uuid l ≠ "l9") (payment_ids st0)) as H.
  { repeat constructor. discriminate. }
  split; [exact H|]. exact (request_for_unknown_uuid "l9" _ _ st0 H).
Defined.

(** The run of [_cloverPay] without interruption is its three parts, one
    after the other. *)
Lemma _cloverPay_in_parts u welcome_reply sale_reply st :
  _cloverPay u welcome_reply sale_reply st
  = match _cloverPay_begin u st with
    | (st1, inl c) => (st1, c)
    | (st1, inr line) =>
        match _cloverPay_welcomed line welcome_reply st1 with
        | (st2, inl c) => (st2, c)
        | (st2, inr line') => _cloverPay_sold line' sale_reply st2
        end
    end.
Proof.
  unfold _cloverPay, _cloverPay_begin, _cloverPay_welcomed, _cloverPay_sold,
    _callClover.
  destruct (find_uuid u (payment_ids st) ≫= _) as [[line l]|]; [|done].
  destruct (Js.lt (amount l) (num 0)); [done|].
  destruct (_callClover_settle welcome_reply _) as [st1 [v|reason]]; [|done].
  by destruct (_cloverPayData st1).
Qed.

(** The same for [_cloverCancel]: the call goes out, then it settles. *)
Lemma _cloverCancel_in_parts ignoreError reply st :
  _cloverCancel ignoreError reply st
  = _cloverCancel_settled ignoreError reply (fire E_cancel_sent st).
Proof. done. Qed.

(** When the [welcome] call of a request fails in transport, in the state
    of that moment: the request is rejected with the reason of the
    failure ([{}] when it is [undefined]), outside the [try] of the sale;
    no call is made, so no sale; the connectivity dialog is the only
    dialog added; no waiter is parked; the line pending at that moment
    goes to [retry] and no other line is touched. *)
Theorem welcome_failure_rejects_request line e st :
  snd (_cloverPay_welcomed line (TransportError e) st)
  = inl (Rejected (default_data e))
  ∧ calls (fst (_cloverPay_welcomed line (TransportError e) st)) = calls st
  ∧ dialogs (fst (_cloverPay_welcomed line (TransportError e) st))
    = connectivity_dialog :: dialogs st
  ∧ paymentLineResolvers (fst (_cloverPay_welcomed line (TransportError e) st))
    = paymentLineResolvers st
  ∧ promises (fst (_cloverPay_welcomed line (TransportError e) st))
    = promises st
  ∧ (∀ p l, pendingCloverLine st = Some p ->
       payment_ids st !! p = Some l ->
       payment_ids (fst (_cloverPay_welcomed line (TransportError e) st)) !! p
       = Some (setPaymentStatus retry l))
  ∧ (∀ k, pendingCloverLine st ≠ Some k ->
       payment_ids (fst (_cloverPay_welcomed line (TransportError e) st)) !! k
       = payment_ids st !! k).
Proof.
  unfold _cloverPay_welcomed, _callClover_settle, _handleOdooConnectionFailure.
  destruct (pendingCloverLine st) as [p|]; simpl; repeat (split; [done|]).
  - split.
    + intros p' l [= <-] Hl. by rewrite list_lookup_alter_eq, Hl.
    + intros k Hk. apply list_lookup_alter_ne. congruence.
  - by split.
Qed.

(** When the [sale] call fails in transport the request resolves to
    [false] with the requested line in [retry]; the operator sees the
    connectivity dialog and then the dialog of the failed request; no
    settlement field of any line is written and no waiter is parked. *)
Theorem sale_failure_retries u line l j lj v e st :
  find_uuid u (payment_ids st) = Some line ->
  payment_ids st !! line = Some l ->
  Js.lt (amount l) (num 0) = false ->
  selected_paymentline st = Some j ->
  payment_ids st !! j = Some lj ->
  e ≠ VUndef ->
  e ≠ VNull ->
  snd (sendPaymentRequest u (Reply v) (TransportError e) st)
  = Fulfilled (RBool false)
  ∧ payment_status
      <$> payment_ids (fst (sendPaymentRequest u (Reply v) (TransportError e) st))
          !! line
    = Some retry
  ∧ dialogs (fst (sendPaymentRequest u (Reply v) (TransportError e) st))
    = {| title := _t "Clover Error";
         body := _t1 "Payment request failed: %s" (or (get "message" e) e) |}
      :: connectivity_dialog :: dialogs st
  ∧ operations (calls (fst (sendPaymentRequest u (Reply v) (TransportError e) st)))
    = "sale" :: "welcome" :: operations (calls st)
  ∧ paymentLineResolvers (fst (sendPaymentRequest u (Reply v) (TransportError e) st))
    = paymentLineResolvers st
  ∧ Forall2 (λ a b, settlement b = settlement a)
      (payment_ids st)
      (payment_ids (fst (sendPaymentRequest u (Reply v) (TransportError e) st))).
Proof.
  intros Hfind Hl Hamount Hsel Hlj Hundef Hnull.
  unfold sendPaymentRequest, _cloverPay.
  rewrite (find_uuid_line _ _ _ _ Hfind Hl), Hamount.
  unfold _callClover at 1. simpl.
  unfold _cloverPayData. simpl. rewrite Hsel. simpl. rewrite Hlj. simpl.
  unfold _callClover, _callClover_settle, _handleOdooConnectionFailure.
  assert (∀ ls i s, Forall2 (λ a b, settlement b = settlement a) (payment_ids st) ls ->
                  Forall2 (λ a b, settlement b = settlement a) (payment_ids st)
                    (alter (setPaymentStatus s) i ls)) as Hframe.
  { intros ls i s H. apply Forall2_alter_r; [done|]. intros x y _ _ Hxy. exact Hxy. }
  assert (Forall2 (λ a b, settlement b = settlement a)
            (payment_ids st) (payment_ids st)) as Hrefl.
  { by apply Forall_Forall2_diag, Forall_forall. }
  match goal with
  | |- context [pendingCloverLine ?s] =>
      change (pendingCloverLine s) with (pendingCloverLine st)
  end.
  destruct (pendingCloverLine st) as [p|]; destruct e; try done; simpl;
    (split; [done|]);
    (split; [rewrite list_lookup_alter_eq;
             try rewrite list_lookup_alter; try case_decide; subst;
             by rewrite Hl|]);
    repeat (split; [done|]); auto.
Qed.

Lemma sale_failure_retries_witness :
  find_uuid "l1" (payment_ids st0) = Some 0%nat
  ∧ payment_ids st0 !! 0%nat = Some (new_line "l1" (cents 1234) "clover")
  ∧ Js.lt (amount (new_line "l1" (cents 1234) "clover")) (num 0) = false
  ∧ selected_paymentline st0 = Some 0%nat
  ∧ transport_error ≠ VUndef
  ∧ transport_error ≠ VNull
  ∧ snd (sendPaymentRequest "l1" (Reply (VObj []))
           (TransportError transport_error) st0)
    = Fulfilled (RBool false)
  ∧ payment_status
      <$> payment_ids
            (fst (sendPaymentRequest "l1" (Reply (VObj []))
                    (TransportError transport_error) st0)) !! 0%nat
    = Some retry.
Proof.
  assert (Js.lt (amount (new_line "l1" (cents 1234) "clover")) (num 0) = false)
    as Ha by reflexivity.
  assert (transport_error ≠ VUndef) as H1 by discriminate.
  assert (transport_error ≠ VNull) as H2 by discriminate.
  split; [reflexivity|]. split; [reflexivity|]. split; [exact Ha|].
  split; [reflexivity|]. split; [exact H1|]. split; [exact H2|].
  pose proof (sale_failure_retries "l1" 0 _ 0 _ (VObj []) transport_error st0
                eq_refl eq_refl Ha eq_refl eq_refl H1 H2)
    as (Hres & Hretry & _).
  split; [exact Hres | exact Hretry].
Defined.

(** The amount of the sale request is the amount of the line selected on
    the payment screen, in minor units, whichever line the uuid of the
    request names; the correlation string is made of the uuid and the
    session of the order alone. *)
Theorem sale_request_carries_selected_amount u line l j lj v sale_reply st :
  find_uuid u (payment_ids st) = Some line ->
  payment_ids st !! line = Some l ->
  Js.lt (amount l) (num 0) = false ->
  selected_paymentline st = Some j ->
  payment_ids st !! j = Some lj ->
  ∃ data,
    {| call_data := Sale_data data; call_operation := "sale" |}
    ∈ calls (fst (sendPaymentRequest u (Reply v) sale_reply st))
    ∧ pd_amount data = Math_round (PrimFloat.mul (amount lj) (num 100))
    ∧ pd_currency data = currency_name (pos st)
    ∧ pd_externalPaymentId data
      = order_uuid (pos st) ++ "--" ++ string_of_Z (order_session_id (pos st)).
Proof.
  intros Hfind Hl Hamount Hsel Hlj.
  unfold sendPaymentRequest, _cloverPay.
  rewrite (find_uuid_line _ _ _ _ Hfind Hl), Hamount.
  unfold _callClover at 1. simpl.
  unfold _cloverPayData. simpl. rewrite Hsel. simpl. rewrite Hlj. simpl.
  exists {| pd_amount := Math_round (PrimFloat.mul (amount lj) (num 100));
            pd_currency := currency_name (pos st);
            pd_externalPaymentId :=
              order_uuid (pos st) ++ "--"
              ++ string_of_Z (order_session_id (pos st));
            pd_orderId := order_name (pos st);
            pd_note := "POS Order: " ++ order_name (pos st);
            pd_autoAcceptPaymentConfirmations := true;
            pd_autoAcceptSignature := true |}.
  split; [|done].
  destruct sale_reply as [response|e]; unfold _callClover; simpl.
  - match goal with
    | |- context [_cloverHandleResponse response line ?s] =>
        destruct (calls_cloverHandleResponse response line s) as [Hc|Hc];
        destruct (_cloverHandleResponse response line s) as [st3 r]
    end; simpl in *; rewrite Hc; set_solver.
  - unfold _handleOdooConnectionFailure.
    destruct (pendingCloverLine _); destruct e; simpl; set_solver.
Qed.

Lemma sale_request_carries_selected_amount_witness :
  find_uuid "l2" (payment_ids st_two) = Some 1%nat
  ∧ payment_ids st_two !! 1%nat = Some (new_line "l2" (num 7) "clover")
  ∧ Js.lt (amount (new_line "l2" (num 7) "clover")) (num 0) = false
  ∧ selected_paymentline st_two = Some 0%nat
  ∧ payment_ids st_two !! 0%nat = Some (new_line "l1" (num 5) "clover")
  ∧ ∃ data,
      {| call_data := Sale_data data; call_operation := "sale" |}
      ∈ calls (fst (sendPaymentRequest "l2" (Reply (VObj []))
                      (Reply pending_reply) st_two))
      ∧ pd_amount data = num 500.
Proof.
  assert (Js.lt (amount (new_line "l2" (num 7) "clover")) (num 0) = false)
    as Ha by reflexivity.
  split; [reflexivity|]. split; [reflexivity|]. split; [exact Ha|].
  split; [reflexivity|]. split; [reflexivity|].
  destruct (sale_request_carries_selected_amount "l2" 1 _ 0 _ (VObj [])
              (Reply pending_reply) st_two eq_refl eq_refl Ha eq_refl eq_refl)
    as (data & Hin & Hamount & _).
  exists data. split; [exact Hin|]. rewrite Hamount. reflexivity.
Defined.

(** ** The success path *)

(** A reply that passes the success test settles the line without giving
    it a status: [true] is returned and the status is left to the caller;
    no dialog is shown, no waiter is parked, the [thank_you] call goes out,
    and [clover_result] is the result of the reply or, failing that,
    [SUCCESS]. *)
Theorem success_reply_settles response line l st :
  payment_ids st !! line = Some l ->
  sale_reply_table response = Success ->
  snd (_cloverHandleResponse response line st) = RBool true
  ∧ payment_ids (fst (_cloverHandleResponse response line st)) !! line
    = Some (settle_line response l)
  ∧ payment_status (settle_line response l) = payment_status l
  ∧ truthy (clover_result (settle_line response l)) = true
  ∧ dialogs (fst (_cloverHandleResponse response line st)) = dialogs st
  ∧ paymentLineResolvers (fst (_cloverHandleResponse response line st))
    = paymentLineResolvers st
  ∧ calls (fst (_cloverHandleResponse response line st))
    = {| call_data := Empty_data; call_operation := "thank_you" |} :: calls st.
Proof.
  intros Hl Htable. unfold sale_reply_table in Htable.
  unfold _cloverHandleResponse.
  destruct (negb (truthy response)); [done|].
  destruct (truthy (get "error" response)); [done|].
  destruct (_ || _ || _).
  2: { by destruct (_ || _). }
  simpl. rewrite list_lookup_alter_eq, Hl. simpl.
  repeat (split; [done|]). split; [|done].
  unfold or. by destruct (truthy (get "result" response)) eqn:Hr.
Qed.

Lemma success_reply_settles_witness :
  payment_ids st_two !! 0%nat = Some (new_line "l1" (num 5) "clover")
  ∧ sale_reply_table success_reply = Success
  ∧ snd (_cloverHandleResponse success_reply 0 st_two) = RBool true
  ∧ payment_status
      <$> payment_ids (fst (_cloverHandleResponse success_reply 0 st_two))
          !! 0%nat
    = Some pending.
Proof.
  split; [reflexivity|]. split; [reflexivity|].
  pose proof (success_reply_settles success_reply 0 _ st_two eq_refl eq_refl)
    as (Hres & Hline & Hstatus & _).
  split; [exact Hres|]. rewrite Hline. reflexivity.
Defined.

(** ** A parked payment and its notification *)

Lemma list_find_alter_at {A} (P : A -> Prop) `{!∀ x, Decision (P x)}
    (f : A -> A) i x (ls : list A) :
  list_find P ls = Some (i, x) ->
  P (f x) ->
  fst <$> list_find P (alter f i ls) = Some i.
Proof.
  revert i. induction ls as [|y ls IH]; intros i Hfind Hfx; [done|].
  simpl in Hfind. destruct (decide (P y)) as [Hy|Hy].
  - simplify_eq. simpl. by rewrite decide_True.
  - destruct (list_find P ls) as [[i' x']|] eqn:E; simplify_eq/=.
    rewrite decide_False by done.
    specialize (IH i' eq_refl Hfx).
    by destruct (list_find P (alter f i' ls)) as [[]|]; simplify_eq/=.
Qed.

(** A status that is not final leaves the pending line pending. *)
Lemma pendingCloverLine_setPaymentStatus s line st :
  pendingCloverLine st = Some line ->
  s ≠ done -> s ≠ reversed ->
  pendingCloverLine (update_line line (setPaymentStatus s) st) = Some line.
Proof.
  unfold pendingCloverLine, getPendingPaymentLine. intros Hp Hd Hr.
  destruct (list_find _ (payment_ids st)) as [[i x]|] eqn:E; simplify_eq/=.
  apply (list_find_alter_at _ _ _ x); [done|].
  apply list_find_Some in E as (_ & [Ht Hx] & _).
  split; [done|]. unfold isDone. simpl. by destruct s.
Qed.

(** A sale answered [PENDING] and the notification that follows it, put
    together: the reply parks a new promise under the uuid of the line and
    sets the line to [waitingCard]; the notification fulfils that very
    promise with [isSuccess] and removes the resolver, so that the
    registry is what it was without the line; the status is left to the
    one who awaits the promise. *)
Theorem pending_reply_then_notification response notification line l st :
  pendingCloverLine st = Some line ->
  payment_ids st !! line = Some l ->
  sale_reply_table response = Pending ->
  truthy notification = true ->
  let st1 := fst (_cloverHandleResponse response line st) in
  let st2 := fst (handleCloverStatusResponse (Reply notification) st1) in
  snd (_cloverHandleResponse response line st) = RPromise (length (promises st))
  ∧ payment_status <$> payment_ids st1 !! line = Some waitingCard
  ∧ paymentLineResolvers st1 !! uuid l = Some (length (promises st))
  ∧ promises st1 = (promises st ++ [None])%list
  ∧ promises st2 = (promises st ++ [Some (isSuccess notification)])%list
  ∧ paymentLineResolvers st2 = delete (uuid l) (paymentLineResolvers st)
  ∧ payment_status <$> payment_ids st2 !! line = Some waitingCard.
Proof.
  intros Hpending Hl Htable Hn st1 st2.
  assert (_cloverHandleResponse response line st
          = (set_resolvers
               (<[uuid l := length (promises st)]> (paymentLineResolvers st))
               (set_promises (promises st ++ [None])
                  (update_line line (setPaymentStatus waitingCard) st)),
             RPromise (length (promises st)))) as Heq.
  { unfold sale_reply_table in Htable. unfold _cloverHandleResponse.
    destruct (negb (truthy response)); [done|].
    destruct (truthy (get "error" response)); [done|].
    destruct (_ || _ || _); [done|].
    destruct (_ || _); [|done].
    unfold waitForPaymentConfirmation. simpl.
    by rewrite list_lookup_alter_eq, Hl. }
  assert (pendingCloverLine st1 = Some line) as Hpending1.
  { subst st1. rewrite Heq.
    by apply (pendingCloverLine_setPaymentStatus waitingCard line st). }
  assert (payment_ids st1 !! line = Some (setPaymentStatus waitingCard l))
    as Hl1.
  { subst st1. rewrite Heq. simpl. by rewrite list_lookup_alter_eq, Hl. }
  assert (paymentLineResolvers st1 !! uuid l = Some (length (promises st)))
    as Hr1.
  { subst st1. rewrite Heq. simpl. by rewrite lookup_insert_eq. }
  assert (promises st1 = (promises st ++ [None])%list) as Hp1.
  { subst st1. by rewrite Heq. }
  rewrite Heq. split; [done|]. split; [by rewrite Hl1|].
  split; [done|]. split; [done|].
  subst st2.
  rewrite (handleCloverStatusResponse_resolver notification line
             (setPaymentStatus waitingCard l) (length (promises st)) st1
             Hpending1 Hl1 Hr1 Hn).
  assert (∀ s : State, promises s = promises st1 ->
            promises (resolve (length (promises st)) (isSuccess notification) s)
            = (promises st ++ [Some (isSuccess notification)])%list) as Hres.
  { intros s Hs. rewrite resolve_pending.
    - simpl. rewrite Hs, Hp1.
      rewrite insert_app_r_alt, Nat.sub_diag by lia. done.
    - rewrite Hs, Hp1. by rewrite lookup_app_r, Nat.sub_diag. }
  assert (∀ (s : State) v, payment_ids (resolve (length (promises st)) v s)
                           = payment_ids s) as Hlines.
  { intros s v. unfold resolve. by repeat case_match. }
  simpl. split; [by destruct (truthy (isSuccess notification)); apply Hres|].
  split.
  { subst st1. rewrite Heq. simpl. apply delete_insert_eq. }
  rewrite Hlines.
  destruct (truthy (isSuccess notification)); simpl.
  - rewrite list_lookup_alter_eq, Hl1. done.
  - by rewrite Hl1.
Qed.

Lemma pending_reply_then_notification_witness :
  let st1 := fst (_cloverHandleResponse pending_reply 0 st0) in
  let st2 :=
    fst (handleCloverStatusResponse (Reply (success_notification "p1")) st1) in
  pendingCloverLine st0 = Some 0%nat
  ∧ payment_ids st0 !! 0%nat = Some (new_line "l1" (cents 1234) "clover")
  ∧ sale_reply_table pending_reply = Pending
  ∧ truthy (success_notification "p1") = true
  ∧ snd (_cloverHandleResponse pending_reply 0 st0) = RPromise 0
  ∧ promises st2 = [Some (VBool true)]
  ∧ paymentLineResolvers st2 = delete "l1" ∅.
Proof.
  intros st1 st2.
  split; [reflexivity|]. split; [reflexivity|]. split; [reflexivity|].
  split; [reflexivity|].
  pose proof (pending_reply_then_notification pending_reply
                (success_notification "p1") 0 _ st0
                eq_refl eq_refl eq_refl eq_refl)
    as (Hres & _ & _ & _ & Hp & Hr & _).
  split; [exact Hres|]. split; [exact Hp | exact Hr].
Defined.

(** An empty notification ([null], [undefined], any falsy payload) is
    handled as a connection failure: the pending line goes to [retry] and
    the connectivity dialog is shown, but no waiter is consumed, so the
    promise of a parked payment stays pending, and no other line changes. *)
Theorem empty_notification_keeps_waiter notification st :
  truthy notification = false ->
  let st' := fst (handleCloverStatusResponse (Reply notification) st) in
  paymentLineResolvers st' = paymentLineResolvers st
  ∧ promises st' = promises st
  ∧ calls st' = calls st
  ∧ dialogs st' = connectivity_dialog :: dialogs st
  ∧ (∀ line l, pendingCloverLine st = Some line ->
       payment_ids st !! line = Some l ->
       payment_ids st' !! line = Some (setPaymentStatus retry l))
  ∧ (∀ k, pendingCloverLine st ≠ Some k ->
       payment_ids st' !! k = payment_ids st !! k).
Proof.
  intros Hn st'. subst st'. unfold handleCloverStatusResponse.
  rewrite Hn. simpl. unfold _handleOdooConnectionFailure.
  destruct (pendingCloverLine st) as [p|]; simpl; repeat (split; [done|]).
  - split.
    + intros line l [= <-] Hl. by rewrite list_lookup_alter_eq, Hl.
    + intros k Hk. apply list_lookup_alter_ne. congruence.
  - by split.
Qed.

Lemma empty_notification_keeps_waiter_witness :
  truthy VNull = false
  ∧ paymentLineResolvers
      (fst (handleCloverStatusResponse (Reply VNull) st_waiting))
    = paymentLineResolvers st_waiting
  ∧ promises (fst (handleCloverStatusResponse (Reply VNull) st_waiting))
    = [None].
Proof.
  split; [reflexivity|].
  pose proof (empty_notification_keeps_waiter VNull st_waiting eq_refl)
    as (Hr & Hp & _).
  split; [exact Hr | exact Hp].
Defined.

(** When every clover line of the order is done (or reversed), a
    notification with a payload changes nothing at all: no line, no
    dialog, no call, no waiter. *)
Theorem notification_without_pending_line notification st :
  Forall (λ l, use_payment_terminal l = "clover" -> isDone l = true)
    (payment_ids st) ->
  truthy notification = true ->
  handleCloverStatusResponse (Reply notification) st = (st, None).
Proof.
  intros Hdone Hn. unfold handleCloverStatusResponse. rewrite Hn. simpl.
  assert (pendingCloverLine st = None) as ->; [|done].
  unfold pendingCloverLine, getPendingPaymentLine.
  assert (list_find (λ l, use_payment_terminal l = "clover" ∧ isDone l = false)
            (payment_ids st) = None) as ->; [|done].
  apply list_find_None. eapply Forall_impl; [exact Hdone|].
  intros l Himp [Ht Hd]. rewrite (Himp Ht) in Hd. discriminate.
Qed.

Lemma notification_without_pending_line_witness :
  let paid := update_line 0 (handlePaymentResponse true) st0 in
  Forall (λ l, use_payment_terminal l = "clover" -> isDone l = true)
    (payment_ids paid)
  ∧ truthy (success_notification "p1") = true
  ∧ handleCloverStatusResponse (Reply (success_notification "p1")) paid
    = (paid, None).
Proof.
  intros paid.
  assert (Forall (λ l, use_payment_terminal l = "clover" -> isDone l = true)
            (payment_ids paid)) as H.
  { repeat constructor. }
  split; [exact H|]. split; [reflexivity|].
  exact (notification_without_pending_line (success_notification "p1") paid
           H eq_refl).
Defined.

(** ** What no method does *)

Lemma continues_refl st : continues st st.
Proof.
  repeat split; try done; try by exists [].
  by exists 0%nat.
Qed.

Lemma continues_trans st1 st2 st3 :
  continues st1 st2 -> continues st2 st3 -> continues st1 st3.
Proof.
  intros ([ds1 Hd1] & [cs1 Hc1] & Hp1 & Hs1 & Ht1 & [n1 Hn1] & Hf1)
         ([ds2 Hd2] & [cs2 Hc2] & Hp2 & Hs2 & Ht2 & [n2 Hn2] & Hf2).
  split; [exists (ds2 ++ ds1)%list; by rewrite Hd2, Hd1, (assoc_L app)|].
  split; [exists (cs2 ++ cs1)%list; by rewrite Hc2, Hc1, (assoc_L app)|].
  split; [congruence|]. split; [congruence|]. split; [congruence|].
  split; [exists (n1 + n2)%nat; lia|]. auto.
Qed.

Lemma continues_showError message st : continues st (_showError message st).
Proof.
  repeat split; try done; try by exists [].
  - by eexists [_].
  - by exists 0%nat.
Qed.

Lemma continues_update_line i f st : continues st (update_line i f st).
Proof.
  repeat split; try done; try by exists []. by exists 0%nat.
Qed.

Lemma continues_callClover_send data operation st :
  continues st (_callClover_send data operation st).
Proof.
  repeat split; try done; try by exists [].
  - by eexists [_].
  - by exists 0%nat.
Qed.

Lemma continues_handleOdooConnectionFailure data st :
  continues st (fst (_handleOdooConnectionFailure data st)).
Proof.
  unfold _handleOdooConnectionFailure. simpl.
  destruct (pendingCloverLine st).
  - eapply continues_trans; [eapply continues_update_line|].
    apply continues_showError.
  - apply continues_showError.
Qed.

Lemma continues_callClover_settle reply st :
  continues st (fst (_callClover_settle reply st)).
Proof.
  destruct reply as [v|e]; [apply continues_refl|].
  apply (continues_handleOdooConnectionFailure e st).
Qed.

Lemma continues_callClover data operation reply st :
  continues st (fst (_callClover data operation reply st)).
Proof.
  eapply continues_trans; [apply continues_callClover_send|].
  apply continues_callClover_settle.
Qed.

Lemma continues_waitForPaymentConfirmation line st :
  continues st (fst (waitForPaymentConfirmation line st)).
Proof.
  unfold waitForPaymentConfirmation.
  destruct (payment_ids st !! line); [|apply continues_refl]. simpl.
  repeat split; try done; try by exists [].
  - exists 1%nat. simpl. by rewrite length_app.
  - intros q v Hq. simpl. by apply lookup_app_l_Some.
Qed.

Lemma continues_resolve p v st : continues st (resolve p v st).
Proof.
  unfold resolve. destruct (promises st !! p) as [[w|]|] eqn:Hp;
    try apply continues_refl.
  repeat split; try done; try by exists [].
  - exists 0%nat. simpl. rewrite length_insert. lia.
  - intros q w Hq. simpl. rewrite list_lookup_insert_ne; [done|congruence].
Qed.

Lemma continues_set_resolvers m st : continues st (set_resolvers m st).
Proof.
  repeat split; try done; try by exists []. by exists 0%nat.
Qed.

Lemma continues_handleSuccessResponse response line st :
  continues st (fst (_handleSuccessResponse response line st)).
Proof.
  unfold _handleSuccessResponse. simpl.
  eapply continues_trans; [eapply continues_update_line|].
  apply continues_callClover_send.
Qed.

Lemma continues_cloverHandleResponse response line st :
  continues st (fst (_cloverHandleResponse response line st)).
Proof.
  unfold _cloverHandleResponse.
  destruct (negb (truthy response)).
  { eapply continues_trans; [apply continues_showError|].
    apply continues_update_line. }
  destruct (truthy (get "error" response)).
  { destruct (is_num (num 401) _);
      (eapply continues_trans; [apply continues_showError|]);
      apply continues_update_line. }
  destruct (_ || _ || _); [apply continues_handleSuccessResponse|].
  destruct (_ || _).
  { eapply continues_trans; [eapply continues_update_line|].
    apply continues_waitForPaymentConfirmation. }
  eapply continues_trans; [apply continues_showError|].
  apply continues_update_line.
Qed.

Lemma continues_cloverPay u welcome_reply sale_reply st :
  continues st (fst (_cloverPay u welcome_reply sale_reply st)).
Proof.
  unfold _cloverPay.
  destruct (find_uuid u (payment_ids st) ≫= _) as [[line l]|];
    [|apply continues_refl].
  destruct (Js.lt (amount l) (num 0)); [apply continues_showError|].
  pose proof (continues_callClover Empty_data "welcome" welcome_reply st) as H1.
  destruct (_callClover Empty_data "welcome" welcome_reply st)
    as [st1 [v|reason]]; simpl in H1; [|done].
  destruct (_cloverPayData st1) as [data|]; [|done].
  pose proof (continues_callClover (Sale_data data) "sale" sale_reply st1) as H2.
  destruct (_callClover (Sale_data data) "sale" sale_reply st1)
    as [st2 [response|error]]; simpl in H2.
  - pose proof (continues_cloverHandleResponse response line st2) as H3.
    destruct (_cloverHandleResponse response line st2) as [st3 r]. simpl in *.
    eauto using continues_trans.
  - assert (continues st st2) as H12 by eauto using continues_trans.
    destruct error; simpl; try done;
      (eapply continues_trans; [exact H12|]);
      (eapply continues_trans; [apply continues_showError|]);
      apply continues_update_line.
Qed.

Lemma continues_handleCloverStatusResponse reply st :
  continues st (fst (handleCloverStatusResponse reply st)).
Proof.
  unfold handleCloverStatusResponse.
  destruct reply as [notification|e]; [|apply continues_refl].
  destruct (negb (truthy notification));
    [apply (continues_handleOdooConnectionFailure (VObj []) st)|].
  destruct (pendingCloverLine st ≫= _) as [[line l]|]; [|apply continues_refl].
  match goal with
  | |- context [paymentLineResolvers ?s !! uuid l] =>
      assert (continues st s) as H1
        by (destruct (truthy (isSuccess notification));
            [apply continues_handleSuccessResponse | apply continues_showError]);
      destruct (paymentLineResolvers s !! uuid l) as [p|]
  end; simpl.
  - eapply continues_trans; [exact H1|].
    eapply continues_trans; [apply continues_resolve|].
    apply continues_set_resolvers.
  - eapply continues_trans; [exact H1|]. apply continues_update_line.
Qed.

Lemma continues_cloverCancel ignoreError reply st :
  continues st (fst (_cloverCancel ignoreError reply st)).
Proof.
  unfold _cloverCancel.
  pose proof (continues_callClover Empty_data "cancel" reply st) as H1.
  destruct (_callClover Empty_data "cancel" reply st) as [st1 [response|e]];
    simpl in H1.
  - destruct (_ && _); [|done].
    eapply continues_trans; [exact H1|]. apply continues_showError.
  - destruct (negb ignoreError); [|done].
    eapply continues_trans; [exact H1|]. apply continues_showError.
Qed.

(** No method takes anything back: after any method the dialogs and the
    calls of before are still there under the new ones; the order context,
    the selected line and the terminal status are what they were; the
    promise store has not shrunk, and a promise that was fulfilled is
    fulfilled with the same value. *)
Theorem methods_only_add m st : continues st (run m st).
Proof.
  destruct m; simpl.
  - apply continues_cloverPay.
  - apply continues_cloverCancel.
  - apply continues_cloverCancel.
  - apply continues_handleCloverStatusResponse.
  - apply continues_callClover_settle.
Qed.

(** ** What the methods do to the lines *)

Section frame.

Variable R : PaymentLine -> PaymentLine -> Prop.
Hypothesis R_status : ∀ s x y, R x y -> R x (setPaymentStatus s y).
Hypothesis R_settle : ∀ response x y, R x y -> R x (settle_line response y).

Lemma frame_status ls i s st :
  Forall2 R ls (payment_ids st) ->
  Forall2 R ls (payment_ids (update_line i (setPaymentStatus s) st)).
Proof. intros H. apply Forall2_alter_r; [done|]. eauto. Qed.

Lemma frame_handleOdooConnectionFailure ls data st :
  Forall2 R ls (payment_ids st) ->
  Forall2 R ls (payment_ids (fst (_handleOdooConnectionFailure data st))).
Proof.
  intros H. unfold _handleOdooConnectionFailure. simpl.
  destruct (pendingCloverLine st); [|done]. by apply frame_status.
Qed.

Lemma frame_callClover ls data operation reply st :
  Forall2 R ls (payment_ids st) ->
  Forall2 R ls (payment_ids (fst (_callClover data operation reply st))).
Proof.
  intros H. destruct reply as [v|e]; [done|].
  by apply (frame_handleOdooConnectionFailure ls e
              (_callClover_send data operation st)).
Qed.

Lemma frame_cloverCancel ls ignoreError reply st :
  Forall2 R ls (payment_ids st) ->
  Forall2 R ls (payment_ids (fst (_cloverCancel ignoreError reply st))).
Proof.
  intros H. unfold _cloverCancel.
  pose proof (frame_callClover ls Empty_data "cancel" reply st H) as H1.
  destruct (_callClover Empty_data "cancel" reply st) as [st1 [response|e]];
    simpl in H1.
  - by destruct (_ && _).
  - by destruct (negb ignoreError).
Qed.

Lemma frame_handleSuccessResponse ls response line st :
  Forall2 R ls (payment_ids st) ->
  Forall2 R ls (payment_ids (fst (_handleSuccessResponse response line st))).
Proof. intros H. simpl. apply Forall2_alter_r; [done|]. eauto. Qed.

Lemma frame_cloverHandleResponse ls response line st :
  Forall2 R ls (payment_ids st) ->
  Forall2 R ls (payment_ids (fst (_cloverHandleResponse response line st))).
Proof.
  intros H. unfold _cloverHandleResponse.
  destruct (negb (truthy response)); [by apply frame_status|].
  destruct (truthy (get "error" response)).
  { destruct (is_num (num 401) _); by apply frame_status. }
  destruct (_ || _ || _); [by apply frame_handleSuccessResponse|].
  destruct (_ || _); [|by apply frame_status].
  unfold waitForPaymentConfirmation.
  destruct (payment_ids _ !! line); by apply frame_status.
Qed.

Lemma frame_cloverPay ls u welcome_reply sale_reply st :
  Forall2 R ls (payment_ids st) ->
  Forall2 R ls (payment_ids (fst (_cloverPay u welcome_reply sale_reply st))).
Proof.
  intros H. unfold _cloverPay.
  destruct (find_uuid u (payment_ids st) ≫= _) as [[line l]|]; [|done].
  destruct (Js.lt (amount l) (num 0)); [done|].
  pose proof (frame_callClover ls Empty_data "welcome" welcome_reply st H)
    as H1.
  destruct (_callClover Empty_data "welcome" welcome_reply st)
    as [st1 [v|reason]]; simpl in H1; [|done].
  destruct (_cloverPayData st1) as [data|]; [|done].
  pose proof (frame_callClover ls (Sale_data data) "sale" sale_reply st1 H1)
    as H2.
  destruct (_callClover (Sale_data data) "sale" sale_reply st1)
    as [st2 [response|error]]; simpl in H2.
  - pose proof (frame_cloverHandleResponse ls response line st2 H2) as H3.
    by destruct (_cloverHandleResponse response line st2).
  - destruct error; simpl; try done; by apply frame_status.
Qed.

Lemma frame_handleCloverStatusResponse ls reply st :
  Forall2 R ls (payment_ids st) ->
  Forall2 R ls (payment_ids (fst (handleCloverStatusResponse reply st))).
Proof.
  intros H. unfold handleCloverStatusResponse.
  destruct reply as [notification|e]; [|done].
  destruct (negb (truthy notification));
    [by apply (frame_handleOdooConnectionFailure ls (VObj []) st)|].
  destruct (pendingCloverLine st ≫= _) as [[line l]|]; [|done].
  match goal with
  | |- context [paymentLineResolvers ?s !! uuid l] =>
      assert (Forall2 R ls (payment_ids s)) as H1
        by (destruct (truthy (isSuccess notification));
            [by apply frame_handleSuccessResponse | done]);
      destruct (paymentLineResolvers s !! uuid l) as [p|]
  end; simpl.
  - unfold resolve. by repeat case_match.
  - apply Forall2_alter_r; [done|]. intros x y _ _ Hxy.
    unfold handlePaymentResponse. destruct (truthy _); eauto.
Qed.

Lemma frame_run ls m st :
  Forall2 R ls (payment_ids st) ->
  Forall2 R ls (payment_ids (run m st)).
Proof.
  intros H. destruct m; simpl.
  - by apply frame_cloverPay.
  - by apply frame_cloverCancel.
  - by apply frame_cloverCancel.
  - by apply frame_handleCloverStatusResponse.
  - destruct reply as [v|e]; [done|].
    by apply (frame_handleOdooConnectionFailure ls e st).
Qed.

End frame.

(** No method adds, removes or reorders a line of the order, and none
    changes the uuid, the amount or the terminal of a line. *)
Theorem methods_keep_payments m st :
  length (payment_ids (run m st)) = length (payment_ids st)
  ∧ ∀ i l, payment_ids st !! i = Some l ->
      ∃ l', payment_ids (run m st) !! i = Some l' ∧ same_payment l l'.
Proof.
  assert (Forall2 same_payment (payment_ids st) (payment_ids (run m st))) as H.
  { apply frame_run.
    - by intros s x y (? & ? & ?).
    - by intros response x y (? & ? & ?).
    - apply Forall_Forall2_diag, Forall_forall. by intros x _. }
  split; [symmetry; by eapply Forall2_length|].
  intros i l Hl. by eapply Forall2_lookup_l.
Qed.

(** ** Lines a method leaves alone *)

Lemma lookup_handleOdooConnectionFailure data st k :
  pendingCloverLine st ≠ Some k ->
  payment_ids (fst (_handleOdooConnectionFailure data st)) !! k
  = payment_ids st !! k.
Proof.
  intros Hk. unfold _handleOdooConnectionFailure. simpl.
  destruct (pendingCloverLine st) as [p|]; [|done].
  apply list_lookup_alter_ne. congruence.
Qed.


Lemma lookup_cloverHandleResponse response line st k :
  line ≠ k ->
  payment_ids (fst (_cloverHandleResponse response line st)) !! k
  = payment_ids st !! k.
Proof.
  intros Hk. unfold _cloverHandleResponse.
  destruct (negb (truthy response)); [by apply list_lookup_alter_ne|].
  destruct (truthy (get "error" response)).
  { destruct (is_num (num 401) _); by apply list_lookup_alter_ne. }
  destruct (_ || _ || _); [by apply list_lookup_alter_ne|].
  destruct (_ || _); [|by apply list_lookup_alter_ne].
  unfold waitForPaymentConfirmation.
  destruct (payment_ids _ !! line); by apply list_lookup_alter_ne.
Qed.


Lemma lookup_handleCloverStatusResponse reply st k :
  pendingCloverLine st ≠ Some k ->
  payment_ids (fst (handleCloverStatusResponse reply st)) !! k
  = payment_ids st !! k.
Proof.
  intros Hpending. unfold handleCloverStatusResponse.
  destruct reply as [notification|e]; [|done].
  destruct (negb (truthy notification));
    [by apply (lookup_handleOdooConnectionFailure (VObj []) st)|].
  destruct (pendingCloverLine st) as [line|]; [|done]. simpl.
  destruct (payment_ids st !! line) as [l|]; [|done]. simpl.
  assert (line ≠ k) as Hk by congruence.
  destruct (truthy (isSuccess notification)); simpl;
    destruct (paymentLineResolvers st !! uuid l); simpl;
    unfold resolve; repeat case_match; simpl;
    rewrite ?list_lookup_alter_ne by done; done.
Qed.



(** An event touches at most two lines: the line its method holds (the
    line of the request, when the [sale] call settles) and the clover line
    that is pending at the moment of the event.  Every other line is left
    as it is, whatever other events came between the parts of a method. *)
Theorem events_touch_target_and_pending ev st k :
  event_target ev ≠ Some k ->
  pendingCloverLine st ≠ Some k ->
  payment_ids (fire ev st) !! k = payment_ids st !! k.
Proof.
  intros Htarget Hpending. destruct ev; simpl in *.
  - unfold _cloverPay_begin.
    destruct (find_uuid u (payment_ids st) ≫= _) as [[line l]|]; [|done].
    by destruct (Js.lt (amount l) (num 0)).
  - unfold _cloverPay_welcomed.
    destruct reply as [v|e].
    + simpl. by destruct (_cloverPayData st).
    + unfold _callClover_settle.
      by apply (lookup_handleOdooConnectionFailure e st).
  - unfold _cloverPay_sold. destruct reply as [response|e].
    + simpl.
      pose proof (lookup_cloverHandleResponse response line st k) as H.
      destruct (_cloverHandleResponse response line st) as [st3 r].
      apply H. congruence.
    + unfold _callClover_settle, _handleOdooConnectionFailure.
      destruct (pendingCloverLine st) as [p|]; destruct e; simpl; try done;
        rewrite ?list_lookup_alter_ne by congruence; done.
  - done.
  - unfold _cloverCancel_settled. destruct reply as [response|e].
    + simpl. by destruct (_ && _).
    + unfold _callClover_settle.
      pose proof (lookup_handleOdooConnectionFailure e st k Hpending) as H.
      destruct (_handleOdooConnectionFailure e st) as [st1 reason].
      by destruct (negb ignoreError).
  - by apply lookup_handleCloverStatusResponse.
  - destruct reply as [v|e]; [done|].
    by apply (lookup_handleOdooConnectionFailure e st).
Qed.

Lemma events_touch_target_and_pending_witness :
  let requested :=
    fire (E_sendPaymentRequest "l2")
      (set_payment_ids
         [new_line "l1" (num 5) "clover"; new_line "l2" (num 7) "clover";
          new_line "l3" (num 9) "clover"] st_two) in
  let paid := update_line 0 (handlePaymentResponse true) requested in
  event_target (E_welcome_settles 1 (TransportError transport_error))
  ≠ Some 2%nat
  ∧ pendingCloverLine paid = Some 1%nat
  ∧ pendingCloverLine paid ≠ Some 2%nat
  ∧ payment_ids
      (fire (E_welcome_settles 1 (TransportError transport_error)) paid)
      !! 2%nat
    = Some (new_line "l3" (num 9) "clover").
Proof.
  intros requested paid.
  assert (event_target (E_welcome_settles 1 (TransportError transport_error))
          ≠ Some 2%nat) as H1 by discriminate.
  assert (pendingCloverLine paid ≠ Some 2%nat) as H2
    by (vm_compute; discriminate).
  split; [exact H1|]. split; [reflexivity|]. split; [exact H2|].
  rewrite (events_touch_target_and_pending _ paid 2 H1 H2). reflexivity.
Defined.



(** ** Cancelling *)

(** Cancelling is advisory.  One [cancel] call is made; the result is
    [true] exactly when the call was answered; no waiter is dropped and no
    promise fulfilled, and no settlement field is written.  The dialog of
    the failed cancellation is shown only when errors are not ignored and
    the call failed or was answered with an error; the connectivity dialog
    is shown on a transport failure even when errors are ignored, as it is
    when the payment screen closes. *)
Theorem cancel_is_advisory ignoreError reply st :
  snd (_cloverCancel ignoreError reply st)
  = match reply with Reply _ => true | TransportError _ => false end
  ∧ calls (fst (_cloverCancel ignoreError reply st))
    = {| call_data := Empty_data; call_operation := "cancel" |} :: calls st
  ∧ paymentLineResolvers (fst (_cloverCancel ignoreError reply st))
    = paymentLineResolvers st
  ∧ promises (fst (_cloverCancel ignoreError reply st)) = promises st
  ∧ Forall2 (λ l l', settlement l' = settlement l)
      (payment_ids st) (payment_ids (fst (_cloverCancel ignoreError reply st)))
  ∧ dialogs (fst (_cloverCancel ignoreError reply st))
    = ((if negb ignoreError
           && match reply with
              | Reply response => truthy (get_opt "error" response)
              | TransportError _ => true
              end
        then [{| title := _t "Clover Error";
                 body := _t "Cancelling the payment failed. Please cancel it manually on the Clover terminal." |}]
        else [])
       ++ (match reply with
           | Reply _ => []
           | TransportError _ => [connectivity_dialog]
           end)
       ++ dialogs st)%list.
Proof.
  assert (Forall2 (λ l l', settlement l' = settlement l)
            (payment_ids st)
            (payment_ids (fst (_cloverCancel ignoreError reply st)))) as Hframe.
  { apply frame_cloverCancel.
    - intros s x y Hxy. exact Hxy.
    - apply Forall_Forall2_diag, Forall_forall. by intros x _. }
  revert Hframe.
  unfold _cloverCancel, _callClover, _callClover_settle,
    _handleOdooConnectionFailure.
  destruct reply as [response|e]; simpl.
  - destruct ignoreError; simpl; [done|].
    by destruct (truthy (get_opt "error" response)).
  - destruct (pendingCloverLine _); destruct ignoreError; done.
Qed.

(** ** A success without card data *)

(** When the payload of a success has no [cardTransaction], the card type,
    the transaction id, the cardholder name and the receipt info of the
    line are left as they were, while the authorization code, the clover
    card type and the last four digits are overwritten with [undefined]. *)
Theorem success_without_card_transaction response line l st :
  payment_ids st !! line = Some l ->
  truthy (get "cardTransaction" (or (get "payment" response) response)) = false ->
  ∃ l', payment_ids (fst (_handleSuccessResponse response line st)) !! line
        = Some l'
        ∧ card_type l' = card_type l
        ∧ transaction_id l' = transaction_id l
        ∧ cardholder_name l' = cardholder_name l
        ∧ receipt_info l' = receipt_info l
        ∧ clover_auth_code l' = VUndef
        ∧ clover_card_type l' = VUndef
        ∧ clover_card_last_four l' = VUndef.
Proof.
  intros Hl Hcard. simpl. rewrite list_lookup_alter_eq, Hl. simpl.
  eexists. split; [reflexivity|]. simpl. rewrite Hcard. simpl.
  repeat (split; [done|]).
  by destruct (get "cardTransaction" _) as [| |[]|?|?|?|?].
Qed.

Lemma success_without_card_transaction_witness :
  let settled :=
    fst (_handleSuccessResponse success_reply 0 st_two) in
  payment_ids settled !! 0%nat
  = Some (settle_line success_reply (new_line "l1" (num 5) "clover"))
  ∧ truthy (get "cardTransaction"
              (or (get "payment" (success_notification "p2"))
                  (success_notification "p2"))) = false
  ∧ ∃ l', payment_ids
            (fst (_handleSuccessResponse (success_notification "p2") 0 settled))
            !! 0%nat = Some l'
          ∧ card_type l' = VStr "VISA"
          ∧ clover_card_last_four l' = VUndef.
Proof.
  intros settled. split; [reflexivity|]. split; [reflexivity|].
  destruct (success_without_card_transaction (success_notification "p2") 0
              (settle_line success_reply (new_line "l1" (num 5) "clover")) settled
              eq_refl eq_refl)
    as (l' & Hl' & Hct & _ & _ & _ & _ & _ & Hlast).
  exists l'. split; [exact Hl'|]. split; [by rewrite Hct | exact Hlast].
Defined.

(** ** The OAuth connect widget *)

(** A message changes the widget only if it comes from an allowed origin
    (the origin of the window or one of the two Clover origins), is a
    [CLOVER_OAUTH_CALLBACK] and carries a code; any other message is
    ignored without a trace. *)
Theorem ignored_messages location_origin event update call load w :
  OAuth.origin event ∉ OAuth.allowedOrigins location_origin
  ∨ is_str "CLOVER_OAUTH_CALLBACK" (get "type" (OAuth.event_data event)) = false
  ∨ truthy (get "code" (OAuth.event_data event)) = false ->
  OAuth._onOAuthMessage location_origin event update call load w = (w, true).
Proof.
  intros Hignored. unfold OAuth._onOAuthMessage.
  destruct (bool_decide _) eqn:Horigin; simpl; [|done].
  apply bool_decide_eq_true in Horigin.
  destruct Hignored as [Ho|[Ht|Hc]]; [done| |].
  - by rewrite Ht, andb_false_r.
  - rewrite Hc. by destruct (_ && _).
Qed.

Lemma ignored_messages_witness :
  let event :=
    {| OAuth.origin := "https://evil.example";
       OAuth.event_data :=
         VObj [("type", VStr "CLOVER_OAUTH_CALLBACK"); ("code", VStr "c0de")] |} in
  let w :=
    {| OAuth.isConnecting := true; OAuth.oauthWindow := Some false;
       OAuth.data :=
         {| OAuth.clover_authorization_url := VStr "https://www.clover.com/oauth";
            OAuth.clover_authorization_code := VUndef;
            OAuth.clover_access_token := VUndef;
            OAuth.clover_merchant_id := VStr "M1";
            OAuth.clover_app_id := VStr "A1";
            OAuth.clover_app_secret := VStr "S1" |};
       OAuth.notifications := [] |} in
  (OAuth.origin event ∉ OAuth.allowedOrigins "https://pos.example")
  ∧ OAuth._onOAuthMessage "https://pos.example" event OAuth.Updated
      (Reply (VObj [("type", VStr "ir.actions.client")]))
      (OAuth.LoadError VNull) w
    = (w, true).
Proof.
  intros event w.
  assert (OAuth.origin event ∉ OAuth.allowedOrigins "https://pos.example")
    as Ho.
  { apply (bool_decide_unpack _). vm_compute. exact I. }
  split; [exact Ho|].
  exact (ignored_messages "https://pos.example" event _ _ _ w (or_introl Ho)).
Defined.

(** Whatever the backend answers and however the reload ends (also when
    the handler of the failure throws), [_generateAccessToken] leaves the
    widget not connecting; it replaces the record only by the record a
    successful reload delivers, after a reply that is a client action, and
    it never touches the popup. *)
Theorem token_generation_ends_connecting call load w :
  OAuth.isConnecting (fst (OAuth._generateAccessToken call load w)) = false
  ∧ OAuth.oauthWindow (fst (OAuth._generateAccessToken call load w))
    = OAuth.oauthWindow w
  ∧ (OAuth.data (fst (OAuth._generateAccessToken call load w)) = OAuth.data w
     ∨ ∃ result d,
         call = Reply result
         ∧ is_str "ir.actions.client" (get "type" result) = true
         ∧ load = OAuth.Loaded d
         ∧ OAuth.data (fst (OAuth._generateAccessToken call load w)) = d)
  ∧ ∃ ns,
      OAuth.notifications (fst (OAuth._generateAccessToken call load w))
      = (ns ++ OAuth.notifications w)%list.
Proof.
  unfold OAuth._generateAccessToken, OAuth.catch_error.
  destruct call as [result|error].
  - destruct (truthy result && _) eqn:Hact.
    + apply andb_prop in Hact as [_ Htype].
      destruct load as [d|error].
      * simpl. repeat (split; [done|]).
        split; [right; by exists result, d|]. by eexists [_].
      * destruct error; simpl; repeat (split; [done|]);
          (split; [by left|]); first [by eexists [_] | by eexists [_; _]].
    + simpl. repeat (split; [done|]). split; [by left|]. by exists [].
  - destruct error; simpl; repeat (split; [done|]);
      (split; [by left|]); first [by exists [] | by eexists [_]].
Qed.

(** A callback with a code from an allowed origin is taken, and an open
    popup is closed first.  When the update of the record succeeds, the
    widget ends not connecting, the notifications of before are kept under
    the new ones, and unless a reload replaced the record the
    authorization code of the record is the code of the message.  When the
    update of the record fails, the method ends there with the error:
    nothing but the popup has changed, and the widget is still connecting
    if it was. *)
Theorem accepted_callback location_origin event update call load w :
  OAuth.origin event ∈ OAuth.allowedOrigins location_origin ->
  is_str "CLOVER_OAUTH_CALLBACK" (get "type" (OAuth.event_data event)) = true ->
  truthy (get "code" (OAuth.event_data event)) = true ->
  OAuth.oauthWindow
    (fst (OAuth._onOAuthMessage location_origin event update call load w))
  ≠ Some false
  ∧ match update with
    | OAuth.UpdateError _ =>
        OAuth._onOAuthMessage location_origin event update call load w
        = (OAuth.close_popup w, false)
        ∧ OAuth.isConnecting (OAuth.close_popup w) = OAuth.isConnecting w
        ∧ OAuth.data (OAuth.close_popup w) = OAuth.data w
        ∧ OAuth.notifications (OAuth.close_popup w) = OAuth.notifications w
    | OAuth.Updated =>
        OAuth.isConnecting
          (fst (OAuth._onOAuthMessage location_origin event update call load w))
        = false
        ∧ (∃ ns,
             OAuth.notifications
               (fst (OAuth._onOAuthMessage location_origin event update call
                       load w))
             = (ns ++ {| OAuth.n_message :=
                           _t "Authorization successful! Generating access token...";
                         OAuth.n_type := "info" |} :: OAuth.notifications w)%list)
        ∧ (OAuth.clover_authorization_code
             (OAuth.data
                (fst (OAuth._onOAuthMessage location_origin event update call
                        load w)))
           = get "code" (OAuth.event_data event)
           ∨ ∃ d, load = OAuth.Loaded d
                  ∧ OAuth.data
                      (fst (OAuth._onOAuthMessage location_origin event update
                              call load w))
                    = d)
    end.
Proof.
  intros Horigin Htype Hcode. unfold OAuth._onOAuthMessage.
  rewrite (bool_decide_eq_true_2 _ Horigin). simpl.
  assert (truthy (OAuth.event_data event) = true) as ->
    by (by apply (truthy_get_object "code")).
  rewrite Htype, Hcode. simpl.
  destruct update as [|error].
  2: { simpl. split; [|done]. by destruct (OAuth.oauthWindow w) as [[]|]. }
  unfold OAuth._generateAccessToken, OAuth.catch_error.
  destruct call as [result|error].
  - destruct (truthy result && _).
    + destruct load as [d|error].
      * simpl. split; [by destruct (OAuth.oauthWindow w) as [[]|]|].
        split; [done|]. split; [by eexists [_]|]. right. by exists d.
      * destruct error; simpl;
          (split; [by destruct (OAuth.oauthWindow w) as [[]|]|]);
          (split; [done|]);
          (split; [first [by eexists [_] | by eexists [_; _]]|]); by left.
    + simpl. split; [by destruct (OAuth.oauthWindow w) as [[]|]|].
      split; [done|]. split; [by exists []|]. by left.
  - destruct error; simpl;
      (split; [by destruct (OAuth.oauthWindow w) as [[]|]|]);
      (split; [done|]);
      (split; [first [by exists [] | by eexists [_]]|]); by left.
Qed.

Lemma accepted_callback_witness :
  let event :=
    {| OAuth.origin := "https://www.clover.com";
       OAuth.event_data :=
         VObj [("type", VStr "CLOVER_OAUTH_CALLBACK"); ("code", VStr "c0de")] |} in
  let w :=
    {| OAuth.isConnecting := true; OAuth.oauthWindow := Some false;
       OAuth.data :=
         {| OAuth.clover_authorization_url := VStr "https://www.clover.com/oauth";
            OAuth.clover_authorization_code := VUndef;
            OAuth.clover_access_token := VUndef;
            OAuth.clover_merchant_id := VStr "M1";
            OAuth.clover_app_id := VStr "A1";
            OAuth.clover_app_secret := VStr "S1" |};
       OAuth.notifications := [] |} in
  let w' :=
    fst (OAuth._onOAuthMessage "https://pos.example" event OAuth.Updated
           (TransportError transport_error) (OAuth.LoadError VNull) w) in
  let failed :=
    OAuth._onOAuthMessage "https://pos.example" event
      (OAuth.UpdateError transport_error)
      (TransportError transport_error) (OAuth.LoadError VNull) w in
  (OAuth.origin event ∈ OAuth.allowedOrigins "https://pos.example")
  ∧ is_str "CLOVER_OAUTH_CALLBACK" (get "type" (OAuth.event_data event)) = true
  ∧ truthy (get "code" (OAuth.event_data event)) = true
  ∧ OAuth.isConnecting w' = false
  ∧ OAuth.oauthWindow w' ≠ Some false
  ∧ OAuth.connectionStatus w' = _t "Authorization pending"
  ∧ failed = (OAuth.close_popup w, false)
  ∧ OAuth.isConnecting (fst failed) = true.
Proof.
  intros event w w' failed.
  assert (OAuth.origin event ∈ OAuth.allowedOrigins "https://pos.example")
    as Ho.
  { apply (bool_decide_unpack _). vm_compute. exact I. }
  split; [exact Ho|]. split; [reflexivity|]. split; [reflexivity|].
  pose proof (accepted_callback "https://pos.example" event OAuth.Updated
                (TransportError transport_error) (OAuth.LoadError VNull) w
                Ho eq_refl eq_refl) as (Hp & Hc & _).
  pose proof (accepted_callback "https://pos.example" event
                (OAuth.UpdateError transport_error)
                (TransportError transport_error) (OAuth.LoadError VNull) w
                Ho eq_refl eq_refl) as (_ & Hf & _).
  split; [exact Hc|]. split; [exact Hp|]. split; [reflexivity|].
  split; [exact Hf|]. reflexivity.
Defined.

(** ** The payment provider card *)

